(** * VULCAN controller: run orchestration, configuration de-duplication
      and unit/coordinate translation (vulcanController.py)

    A shallow embedding of the pure and the file-reading parts of the
    class [vulcanController], followed by the properties of its dedup
    engine, column scheduler and translation layer.

    Conventions of the embedding.
    - A Python [str] is a [string]; a character is its code point below 256.
    - A text file is the list of lines [readlines()] returns (each line
      keeps its final newline); the file store is a finite map from path
      to lines.
    - A Python exception is a [Raise e] result; [Ok v] is a normal return.
    - Python floats are IEEE-754 binary64 numbers, here the primitive
      [float] type, whose operations round exactly like Python's.
    - The built-in [eval] and the operator [!=] on the values it produces
      are parameters of the sections that use them.  [eval] is called
      without a namespace: in [checkDupLinesToDict] the evaluator takes
      the frame of the method (its local names) beside the text. *)

From Stdlib Require Import ZArith String Ascii List Lia Floats.
From stdpp Require Import base option strings gmap list.

Local Open Scope string_scope.
Local Open Scope Z_scope.

(** ** Python results *)

Inductive PyExc : Type :=
  | IndexError
  | ValueError
  | TypeError
  | AttributeError
  | SyntaxError
  | KeyError
  | FileNotFoundError
  | UnboundLocalError
  | NameError.

Inductive res (A : Type) : Type :=
  | Ok (a : A)
  | Raise (e : PyExc).
Arguments Ok {A} a.
Arguments Raise {A} e.

#[global] Instance res_ret : MRet res := fun A a => Ok a.
#[global] Instance res_bind : MBind res := fun A B f m =>
  match m with
  | Ok a => f a
  | Raise e => Raise e
  end.

(** A list comprehension whose element expression may raise. *)
Fixpoint res_mapM {A B} (f : A -> res B) (l : list A) : res (list B) :=
  match l with
  | [] => Ok []
  | a :: l' => b ← f a; bs ← res_mapM f l'; Ok (b :: bs)
  end.

(** ** Python string primitives *)

Module Py.

(** [c.isspace()] for a code point below 256. *)
Definition isspace (c : ascii) : bool :=
  let n := nat_of_ascii c in
  ((9 <=? n)%nat && (n <=? 13)%nat) || ((28 <=? n)%nat && (n <=? 32)%nat)
  || (n =? 133)%nat || (n =? 160)%nat.

Fixpoint lstrip (s : string) : string :=
  match s with
  | EmptyString => EmptyString
  | String c s' => if isspace c then lstrip s' else s
  end.

Fixpoint rstrip (s : string) : string :=
  match s with
  | EmptyString => EmptyString
  | String c s' =>
      match rstrip s' with
      | EmptyString => if isspace c then EmptyString else String c EmptyString
      | r => String c r
      end
  end.

(** [s.startswith(sub)] *)
Fixpoint startswith (sub s : string) : bool :=
  match sub with
  | EmptyString => true
  | String a sub' =>
      match s with
      | EmptyString => false
      | String b s' => Ascii.eqb a b && startswith sub' s'
      end
  end.

(** [s.strip()] *)
Definition strip (s : string) : string := rstrip (lstrip s).

(** [s.split(sep)] for a non-empty [sep] (every call site passes a
    non-empty constant): the pieces between the non-overlapping
    occurrences of [sep], scanned left to right.  [skip] counts the
    characters of a matched separator still to be dropped. *)
Fixpoint split_go (sep : string) (skip : nat) (s : string) : list string :=
  match s with
  | EmptyString => [EmptyString]
  | String c s' =>
      match skip with
      | S k => split_go sep k s'
      | O =>
          if startswith sep s
          then EmptyString :: split_go sep (String.length sep - 1) s'
          else match split_go sep 0 s' with
               | p :: ps => String c p :: ps
               | [] => [String c EmptyString]
               end
      end
  end.

Definition split (sep s : string) : list string := split_go sep 0 s.

(** [s.split(sep)[0]]; [split] never returns an empty list. *)
Definition split0 (sep s : string) : string := hd EmptyString (split sep s).

(** [l[i]] for [i >= 0] *)
Definition index {A} (l : list A) (i : nat) : res A :=
  match l !! i with
  | Some a => Ok a
  | None => Raise IndexError
  end.

(** [l[-1]] *)
Definition index_last {A} (l : list A) : res A :=
  match last l with
  | Some a => Ok a
  | None => Raise IndexError
  end.

(** [s[i]] for [i >= 0] *)
Definition char_at (s : string) (i : nat) : res ascii :=
  match String.get i s with
  | Some c => Ok c
  | None => Raise IndexError
  end.

(** [sub in s] *)
Fixpoint contains (sub s : string) : bool :=
  startswith sub s ||
  match s with
  | EmptyString => false
  | String _ s' => contains sub s'
  end.

(** The characters of a string, each as a one-character string: what
    iterating over a [str] yields. *)
Fixpoint chars (s : string) : list string :=
  match s with
  | EmptyString => []
  | String c s' => String c EmptyString :: chars s'
  end.

(** [sep.join(items)] on a list of strings *)
Fixpoint join (sep : string) (items : list string) : string :=
  match items with
  | [] => EmptyString
  | [x] => x
  | x :: rest => x +:+ sep +:+ join sep rest
  end.

(** [int(c)] for a one-character string: only '0'..'9' convert. *)
Definition int_of_char (c : ascii) : res Z :=
  let n := nat_of_ascii c in
  if (48 <=? n)%nat && (n <=? 57)%nat then Ok (Z.of_nat (n - 48))
  else Raise ValueError.

(** [str(n)] for a natural number. *)
Fixpoint str_nat_go (fuel n : nat) (acc : string) : string :=
  match fuel with
  | O => acc
  | S fuel' =>
      let acc' := String (ascii_of_nat (48 + n mod 10)) acc in
      if (n / 10 =? 0)%nat then acc' else str_nat_go fuel' (n / 10) acc'
  end.

(** [str(z)] and the [{z}] of an f-string, for an [int]. *)
Definition str (z : Z) : string :=
  if z <? 0 then String "-" (str_nat_go (S (Z.abs_nat z)) (Z.abs_nat z) EmptyString)
  else str_nat_go (S (Z.to_nat z)) (Z.to_nat z) EmptyString.

(** [os.path.join(a, b)] on POSIX. *)
Definition ends_with_slash (a : string) : bool :=
  match String.get (String.length a - 1) a with
  | Some c => Ascii.eqb c "/"
  | None => false
  end.

Definition path_join (a b : string) : string :=
  if startswith "/" b then b
  else if String.eqb a EmptyString || ends_with_slash a then a +:+ b
  else a +:+ "/" +:+ b.

End Py.

(** [range(n)] *)
Definition range (n : Z) : list Z := map Z.of_nat (seq 0 (Z.to_nat n)).

(** ** Python values *)

(** The values configuration literals and column encodings denote. *)
#[warnings="-register-all"]
Inductive PyVal : Type :=
  | PNone
  | PBool (b : bool)
  | PInt (z : Z)
  | PFloat (f : float)
  | PStr (s : string)
  | PTuple (items : list PyVal)
  | PList (items : list PyVal).

(** ** Enumerations (the [.name] strings the controller compares with) *)

Definition IMPORT : string := "IMPORT".
Definition EXPORT : string := "EXPORT".

Definition INITIAL_RUN : string := "INITIAL_RUN".
Definition USE_LATEST_VUL : string := "USE_LATEST_VUL".
Definition EXPORT_ONLY : string := "EXPORT_ONLY".
Definition NO_RUN : string := "NO_RUN".

(** ** The controller and its files *)

Record controller : Type := {
  masterDir : string;
  inputDir : string;
  outputDir : string;
  vulcanRunType : string;
  currentRunID : string;
  out_name : string;
  modifyAtmFilePath : string;
}.

Definition cfgComparator (self : controller) : string :=
  Py.path_join (inputDir self) "VulcanCfgComparator.txt".

Definition vulcanFrameworkDir (self : controller) : string :=
  Py.path_join (masterDir self) "vulcan_framework/".

Definition VulcanRuntimeDir (self : controller) : string :=
  Py.path_join (outputDir self) "vul-runtime/".

Definition VulcanRuntimeLogFilePath (self : controller) : string :=
  Py.path_join (VulcanRuntimeDir self) "vul-log.txt".

(** The file store: path to the lines [readlines()] returns.  Only
    regular files are held; the empty path names no file. *)
Abbreviation store := (gmap string (list string)).

Definition lookup_file (fs : store) (path : string) : option (list string) :=
  if String.eqb path EmptyString then None else fs !! path.

(** [os.path.exists(path)] *)
Definition path_exists (fs : store) (path : string) : bool :=
  match lookup_file fs path with
  | Some _ => true
  | None => false
  end.

(** [open(path).readlines()] *)
Definition readlines (fs : store) (path : string) : res (list string) :=
  match lookup_file fs path with
  | Some lines => Ok lines
  | None => Raise FileNotFoundError
  end.

(** ** Translation layer: units *)

(** [translatePressure]: VULCAN has pressure in 0.1 Pa.  A direction
    that is neither name falls through both tests: Python's [None]. *)
Definition translatePressure (direction : string) (pressure : float) : option float :=
  if String.eqb direction EXPORT then Some (pressure / 10)%float
  else if String.eqb direction IMPORT then Some (pressure * 10)%float
  else None.

(** [translateHeight]: divide by 100 to get height in meters. *)
Definition translateHeight (direction : string) (height : float) : option float :=
  if String.eqb direction EXPORT then Some (height / 100)%float
  else if String.eqb direction IMPORT then Some (height * 100)%float
  else None.

(** ** Column scheduler: grid, neighbours, generation *)

(** [generateColumns]: both loops read element [0] of
    [world['atmosphereDim']]. *)
Definition generateColumns (atmosphereDim : list Z) : res (list string) :=
  nx ← Py.index atmosphereDim 0;
  ny ← Py.index atmosphereDim 0;
  Ok (flat_map (fun x => map (fun y => "2" +:+ Py.str x +:+ Py.str y) (range ny)) (range nx)).

(** [int(column[i])] *)
Definition int_at (column : string) (i : nat) : res Z :=
  c ← Py.char_at column i; Py.int_of_char c.

(** [nearestColumns] *)
Definition nearestColumns (column : string) : res (list string) :=
  c0 ← int_at column 0;
  c1 ← int_at column 1;
  c2 ← int_at column 2;
  let nearestList :=
    [ Py.str c0 +:+ Py.str (c1 + 1) +:+ Py.str c2;
      Py.str c0 +:+ Py.str (c1 - 1) +:+ Py.str c2;
      Py.str c0 +:+ Py.str c1 +:+ Py.str (c2 - 1);
      Py.str c0 +:+ Py.str c1 +:+ Py.str (c2 + 1) ] in
  Ok (List.filter (fun x => negb (Py.contains "-" x)) nearestList).

(** The neighbour set of the MISTRA export path,
    [set(self.nearestColumns(column)).intersection(latestRunColumns)]. *)
Definition nearestListColumns (column : string) (latestRunColumns : list string)
  : res (gset string) :=
  nearest ← nearestColumns column;
  Ok (list_to_set nearest ∩ list_to_set latestRunColumns).

(** The list handed to [np.average] for one quantity of one column:
    [[rawOutputAll[col][q] for col in nearestListColumns]]. *)
Definition averagedSamples (rawOutputAll : gmap string (gmap string float))
  (q : string) (column : string) (latestRunColumns : list string)
  : res (list float) :=
  cols ← nearestListColumns column latestRunColumns;
  res_mapM (fun col => match (rawOutputAll !! col) ≫= (fun d => d !! q) with
                       | Some v => Ok v
                       | None => Raise KeyError
                       end) (elements cols).

(** The ledger lines [vulcanOutput] keeps: first space-separated word 'Run'. *)
Definition isRunLine (x : string) : bool := String.eqb (Py.split0 " " x) "Run".

(** [vulcanOutput], as far as the run identifier goes: the new value of
    [self.currentRunID].  (The initial run also recreates the output
    folders and the ledger.) *)
Definition vulcanOutput (fs : store) (self : controller) : res string :=
  if String.eqb (vulcanRunType self) INITIAL_RUN then Ok (currentRunID self)
  else if negb (String.eqb (vulcanRunType self) NO_RUN) then
    lines ← readlines fs (VulcanRuntimeLogFilePath self);
    runString ← Py.index_last (List.filter isRunLine lines);
    c ← Py.char_at runString 4;
    g ← Py.int_of_char c;
    Ok (Py.str (g + 1) +:+ "-")
  else Ok (currentRunID self).

(** The run identifiers of one pass of [runFullVulcan]: each column
    updates [self.currentRunID] from its previous value. *)
Fixpoint runIDs (currentRunID : string) (columnsList : list string) : list string :=
  match columnsList with
  | [] => []
  | column :: rest =>
      let currentRunID' := Py.split0 "-" currentRunID +:+ "-" +:+ column in
      currentRunID' :: runIDs currentRunID' rest
  end.

(** ** Translation layer: columns *)

Section Controller.

(** Python's built-in [eval], as [translateCol] calls it. *)
Variable py_eval : string -> res PyVal.

(** The strings [sep.join(col)] joins: the characters of a [str], the
    items of a tuple or list, each of which must itself be a [str]. *)
Definition join_items (col : PyVal) : res (list string) :=
  match col with
  | PStr s => Ok (Py.chars s)
  | PTuple items | PList items =>
      res_mapM (fun item => match item with
                            | PStr s => Ok s
                            | _ => Raise TypeError
                            end) items
  | _ => Raise TypeError
  end.

(** [translateCol]: VULCAN has the column as string '202', the universal
    standard as tuple of integers (2,0,2). *)
Definition translateCol (direction : string) (col : PyVal) : res PyVal :=
  if String.eqb direction EXPORT then
    items ← join_items col;
    py_eval ("(" +:+ Py.join "," items +:+ ")")
  else if String.eqb direction IMPORT then
    items ← join_items col;
    Ok (PStr (Py.join "" items))
  else Ok PNone.

(** ** Config assembler: injection of the cross-module overrides *)

(** The loop of [cfgVulcan] over [updateDict.items()].  [newValue] is a
    local of [cfgVulcan]: a key that names neither a height nor a
    pressure is assigned the value left by the key before it, and
    raises when there is none.  Override values are numbers, taken as
    binary64 floats; [None] is the unbound local. *)
Fixpoint translateUpdateDict (newValue : option float) (items : list (string * float))
  : res (list (string * float) * option float) :=
  match items with
  | [] => Ok ([], newValue)
  | (key, value) :: rest =>
      let newValue' :=
        if Py.contains "Height" key then translateHeight IMPORT value
        else if Py.contains "Pressure" key then translateHeight IMPORT value
        else newValue in
      match newValue' with
      | None => Raise UnboundLocalError
      | Some v =>
          '(rest', last) ← translateUpdateDict newValue' rest;
          Ok ((key, v) :: rest', last)
      end
  end.

(** What the injection leaves behind: the path of the side artifact and
    the mapping dumped there, and the local [newValue]. *)
Record injection : Type := {
  inj_modifyAtmFilePath : string;
  inj_modify_atm : option (list (string * float));
  inj_newValue : option float;
}.

(** The loop of [cfgVulcan] over [self.importCfgVulcan.items()] on a
    USE_LATEST_VUL run. *)
Fixpoint injectImport (self : controller) (column : string)
  (importCfgVulcan : list (PyVal * list (string * float))) (acc : injection)
  : res injection :=
  match importCfgVulcan with
  | [] => Ok acc
  | (positionString, updateDict) :: rest =>
      translatePositionString ← translateCol IMPORT positionString;
      match translatePositionString with
      | PStr s =>
          if String.eqb s column then
            let path := Py.path_join (VulcanRuntimeDir self)
                          (out_name self +:+ "-run-" +:+ currentRunID self +:+ "-modify_atm.json") in
            '(updateDict', newValue) ← translateUpdateDict (inj_newValue acc) updateDict;
            injectImport self column rest
              {| inj_modifyAtmFilePath := path;
                 inj_modify_atm := Some updateDict';
                 inj_newValue := newValue |}
          else injectImport self column rest acc
      | _ => injectImport self column rest acc
      end
  end.

(** The part of [cfgVulcan] that injects the inbound overrides. *)
Definition cfgVulcan_import (self : controller) (column : string)
  (importCfgVulcan : list (PyVal * list (string * float))) : res injection :=
  let start := {| inj_modifyAtmFilePath := modifyAtmFilePath self;
                  inj_modify_atm := None;
                  inj_newValue := None |} in
  if String.eqb (vulcanRunType self) USE_LATEST_VUL
  then injectImport self column importCfgVulcan start
  else Ok start.

End Controller.

(** ** Dedup engine *)

(** What [checkDupLinesToDict] returns: [False] or a dict. *)
Inductive parsed : Type :=
  | PyFalse
  | PyDict (dict : gmap string PyVal).

(** The local names of [checkDupLinesToDict] at the moment
    [eval(value)] runs.  [eval] is called without a namespace, so the
    expression is evaluated in the frame of the method and can read
    them; [newValue] is unbound ([None]) until a value has evaluated.
    ([self] and the names of the module are the same for every call of
    a check: they are part of the evaluator.) *)
Record frame : Type := {
  f_cfgFileLines : list string;
  f_ignoreVarList : list string;
  f_lines_1 : list string;
  f_lines_2 : list string;
  f_lines_3 : list string;
  f_lines_4 : list string;
  f_dict : gmap string PyVal;
  f_line : string;
  f_key : string;
  f_value : string;
  f_newValue : option PyVal;
}.

Section Dedup.

(** Python's built-in [eval] on a value of an artifact, in the frame of
    [checkDupLinesToDict] (an expression that changes none of the
    locals), and [!=] on the values it returns. *)
Variable py_eval : frame -> string -> res PyVal.
Variable py_ne : PyVal -> PyVal -> bool.

(** Truth value of that result: [False] and the empty dict are false. *)
Definition truthy (p : parsed) : bool :=
  match p with
  | PyFalse => false
  | PyDict dict => negb (bool_decide (dict = ∅))
  end.

(** [lines_1] to [lines_4] of [checkDupLinesToDict]. *)
Definition lines_1 (cfgFileLines : list string) : list string :=
  map Py.strip cfgFileLines.

Definition lines_2 (cfgFileLines : list string) : list string :=
  map (Py.split0 "#") (lines_1 cfgFileLines).

Definition lines_3 (cfgFileLines : list string) : list string :=
  List.filter (fun x => negb (String.eqb x EmptyString)) (lines_2 cfgFileLines).

Definition lines_4 (cfgFileLines : list string) : list string :=
  List.filter (fun x => match String.get 0 x with
                        | Some c => negb (Ascii.eqb c "#")
                        | None => true
                        end) (lines_3 cfgFileLines).

(** The frame at one round of the loop: the arguments and the four
    lists, the dict built so far, the line with its two sides, and the
    [newValue] the round before left. *)
Definition frameAt (cfgFileLines ignoreVarList : list string) (dict : gmap string PyVal)
  (line key value : string) (newValue : option PyVal) : frame :=
  {| f_cfgFileLines := cfgFileLines;
     f_ignoreVarList := ignoreVarList;
     f_lines_1 := lines_1 cfgFileLines;
     f_lines_2 := lines_2 cfgFileLines;
     f_lines_3 := lines_3 cfgFileLines;
     f_lines_4 := lines_4 cfgFileLines;
     f_dict := dict;
     f_line := line;
     f_key := key;
     f_value := value;
     f_newValue := newValue |}.

(** The loop of [checkDupLinesToDict] over [lines_4]; both sides of the
    equal sign are taken before [eval] is tried. *)
Fixpoint linesToDict (cfgFileLines ignoreVarList : list string) (lines : list string)
  (dict : gmap string PyVal) (newValue : option PyVal) : res parsed :=
  match lines with
  | [] => Ok (PyDict dict)
  | line :: rest =>
      let key := Py.strip (Py.split0 "=" line) in
      v ← Py.index (Py.split "=" line) 1;
      let value := Py.strip v in
      match py_eval (frameAt cfgFileLines ignoreVarList dict line key value newValue) value with
      | Raise _ => Ok PyFalse
      | Ok newValue' =>
          linesToDict cfgFileLines ignoreVarList rest (<[key := newValue']> dict)
                      (Some newValue')
      end
  end.

(** [dict.pop(ignoreVar, None)] for every name of the ignore-list. *)
Definition popAll (ignoreVarList : list string) (dict : gmap string PyVal)
  : gmap string PyVal :=
  foldl (fun d ignoreVar => delete ignoreVar d) dict ignoreVarList.

(** [checkDupLinesToDict] *)
Definition checkDupLinesToDict (cfgFileLines ignoreVarList : list string) : res parsed :=
  r ← linesToDict cfgFileLines ignoreVarList (lines_4 cfgFileLines) ∅ None;
  match r with
  | PyFalse => Ok PyFalse
  | PyDict dict => Ok (PyDict (popAll ignoreVarList dict))
  end.

(** What [checkDup] returns: [False], or the list
    [[previousCfgFilePath, latestCfgFilePath]]. *)
Inductive outcome : Type :=
  | Fresh
  | Reuse (previousCfgFilePath latestCfgFilePath : string).

(** The comparison of one earlier artifact with the latest one: the key
    sets must be the same, then no key may hold different values.  (The
    loop over the keys runs only when the key sets are equal, so
    [latest[key]] is always there.) *)
Definition statusFlag (previous latest : gmap string PyVal) : bool :=
  bool_decide (dom previous = dom latest)
  && forallb (fun kv => match latest !! kv.1 with
                        | Some w => negb (py_ne kv.2 w)
                        | None => false
                        end) (map_to_list previous).

(** The loop of [checkDup] over [previousCfgFilePaths].  The test after
    the parse looks at the latest dict; an earlier artifact that parsed
    to [False] then has no [keys()]. *)
Fixpoint scanPrevious (fs : store) (ignoreVarList : list string)
  (latestCfgFileVarDict : gmap string PyVal) (latestCfgFilePath : string)
  (previousCfgFilePaths : list string) : res outcome :=
  match previousCfgFilePaths with
  | [] => Ok Fresh
  | previousCfgFilePath :: rest =>
      lines ← readlines fs previousCfgFilePath;
      previousCfgFileVarDict ← checkDupLinesToDict lines ignoreVarList;
      if negb (truthy (PyDict latestCfgFileVarDict)) then Ok Fresh
      else match previousCfgFileVarDict with
           | PyFalse => Raise AttributeError
           | PyDict previous =>
               if statusFlag previous latestCfgFileVarDict
               then Ok (Reuse previousCfgFilePath latestCfgFilePath)
               else scanPrevious fs ignoreVarList latestCfgFileVarDict latestCfgFilePath rest
           end
  end.

(** The ledger lines [checkDup] keeps: text before the first colon is
    'CfgFilePath'. *)
Definition isCfgFilePathLine (x : string) : bool :=
  String.eqb (Py.split0 ":" x) "CfgFilePath".

(** [x.split('CfgFilePath: ')[-1].strip()] *)
Definition cfgPathOf (x : string) : string :=
  Py.strip (List.last (Py.split "CfgFilePath: " x) EmptyString).

(** [checkDup] *)
Definition checkDup (fs : store) (self : controller) : res outcome :=
  if path_exists fs (modifyAtmFilePath self) then Ok Fresh
  else
    comparatorLines ← readlines fs (cfgComparator self);
    let ignoreVarList := map Py.strip comparatorLines in
    logLines ← readlines fs (VulcanRuntimeLogFilePath self);
    let cfgFilePathAll := List.filter isCfgFilePathLine logLines in
    if (length cfgFilePathAll =? 1)%nat then Ok Fresh
    else
      let previousCfgFilePaths := removelast (map cfgPathOf cfgFilePathAll) in
      let latestCfgFilePath := Py.path_join (vulcanFrameworkDir self) "vulcan_cfg.py" in
      latestLines ← readlines fs latestCfgFilePath;
      latestCfgFileVarDict ← checkDupLinesToDict latestLines ignoreVarList;
      match latestCfgFileVarDict with
      | PyFalse => Ok Fresh
      | PyDict latest =>
          if negb (truthy (PyDict latest)) then Ok Fresh
          else scanPrevious fs ignoreVarList latest latestCfgFilePath previousCfgFilePaths
      end.

(** *** Notions the dedup statements use *)

(** The path of the working configuration artifact. *)
Definition latestCfgFilePath (self : controller) : string :=
  Py.path_join (vulcanFrameworkDir self) "vulcan_cfg.py".

(** The config-artifact events of a ledger, and the earlier paths they
    record (all but the last). *)
Definition cfgFilePathAll (logLines : list string) : list string :=
  List.filter isCfgFilePathLine logLines.

Definition previousCfgFilePaths (logLines : list string) : list string :=
  removelast (map cfgPathOf (cfgFilePathAll logLines)).

(** The artifact at [path] parses successfully into the map [dict]
    (ignore-list names removed). *)
Definition parsesTo (fs : store) (ignoreVarList : list string) (path : string)
  (dict : gmap string PyVal) : Prop :=
  exists lines, readlines fs path = Ok lines
    /\ checkDupLinesToDict lines ignoreVarList = Ok (PyDict dict).

(** Two maps are identical: same key set, pairwise-equal values. *)
Definition sameVars (previous latest : gmap string PyVal) : Prop :=
  dom previous = dom latest
  /\ forall k v w, previous !! k = Some v -> latest !! k = Some w -> py_ne v w = false.

(** The configuration variables of an artifact as text: the name and the
    raw value of every line that is not a comment (the raw value is
    missing when the line has no equal sign). *)
Definition varOf (line : string) : string * option string :=
  (Py.strip (Py.split0 "=" line), Py.strip <$> (Py.split "=" line !! 1%nat)).

Definition configVariables (cfgFileLines : list string) : list (string * option string) :=
  map varOf (lines_4 cfgFileLines).






(** A value that evaluates alike in every frame, as a literal does:
    the expression reads none of the local names of the parser. *)
Definition frameIndependent (value : string) : Prop :=
  forall locals locals', py_eval locals value = py_eval locals' value.

Definition valuesFrameIndependent (vars : list (string * option string)) : Prop :=
  Forall (fun kv => forall value, kv.2 = Some value -> frameIndependent value) vars.

(** Reading and parsing the artifact at [path]. *)
Definition parseAt (fs : store) (ignoreVarList : list string) (path : string)
  : res parsed :=
  readlines fs path ≫= (fun lines => checkDupLinesToDict lines ignoreVarList).



End Dedup.

(** ** A literal evaluator, for running the controller on examples *)

(** A fragment of [eval]: decimal integer literals, single-quoted
    strings without quote or backslash, and parenthesised tuples of two
    or more integer literals.  On these the result is the value Python
    gives; every other string is refused with [SyntaxError], which is
    what Python answers on the malformed texts the examples use. *)

Definition is_digit (c : ascii) : bool :=
  let n := nat_of_ascii c in (48 <=? n)%nat && (n <=? 57)%nat.

Fixpoint all_digits (s : string) : bool :=
  match s with
  | EmptyString => true
  | String c s' => is_digit c && all_digits s'
  end.

Fixpoint digits_value (acc : Z) (s : string) : Z :=
  match s with
  | EmptyString => acc
  | String c s' => digits_value (10 * acc + Z.of_nat (nat_of_ascii c - 48)) s'
  end.

(** A leading zero is allowed only when the whole literal is zero. *)
Definition int_literal (s : string) : option Z :=
  match s with
  | EmptyString => None
  | String c _ =>
      if all_digits s && (negb (Ascii.eqb c "0") || (digits_value 0 s =? 0))
      then Some (digits_value 0 s) else None
  end.

Fixpoint plain_text (s : string) : bool :=
  match s with
  | EmptyString => true
  | String c s' =>
      negb (Ascii.eqb c "'") && negb (Ascii.eqb c "\") && negb (Ascii.eqb c "010")
      && plain_text s'
  end.

Definition str_literal (s : string) : option string :=
  match s with
  | String "'" rest =>
      let n := (String.length rest - 1)%nat in
      let body := String.substring 0 n rest in
      if String.eqb rest (body +:+ "'") && plain_text body then Some body else None
  | _ => None
  end.

Definition tuple_literal (s : string) : option (list Z) :=
  match s with
  | String "(" rest =>
      let n := (String.length rest - 1)%nat in
      let body := String.substring 0 n rest in
      let items := Py.split "," body in
      if String.eqb rest (body +:+ ")") && (2 <=? length items)%nat
      then mapM int_literal items else None
  | _ => None
  end.

Definition literal_eval (s : string) : res PyVal :=
  match int_literal s with
  | Some z => Ok (PInt z)
  | None =>
      match str_literal s with
      | Some t => Ok (PStr t)
      | None =>
          match tuple_literal s with
          | Some zs => Ok (PTuple (map PInt zs))
          | None => Raise SyntaxError
          end
      end
  end.

(** [eval] on an artifact whose values are such literals: no local
    name is read. *)
Definition literal_eval_in (locals : frame) (value : string) : res PyVal :=
  literal_eval value.


(** Structural difference of values; on integers, strings and tuples of
    them this is Python's [!=]. *)
Fixpoint literal_ne (v w : PyVal) : bool :=
  let fix items_ne (vs ws : list PyVal) : bool :=
    match vs, ws with
    | [], [] => false
    | v' :: vs', w' :: ws' => literal_ne v' w' || items_ne vs' ws'
    | _, _ => true
    end in
  match v, w with
  | PNone, PNone => false
  | PBool a, PBool b => negb (Bool.eqb a b)
  | PInt a, PInt b => negb (a =? b)
  | PFloat a, PFloat b => negb (PrimFloat.eqb a b)
  | PStr a, PStr b => negb (String.eqb a b)
  | PTuple a, PTuple b => items_ne a b
  | PList a, PList b => items_ne a b
  | _, _ => true
  end.

(** ** Notions the statements use *)

(** Python's [==] between a returned number and an expected one. *)
Definition returns_equal (r : option float) (h : float) : bool :=
  match r with
  | Some x => PrimFloat.eqb x h
  | None => false
  end.

(** [translateHeight(EXPORT, translateHeight(IMPORT, h))] and the same
    for pressure. *)
Definition heightRoundTrip (h : float) : option float :=
  translateHeight IMPORT h ≫= translateHeight EXPORT.

Definition pressureRoundTrip (p : float) : option float :=
  translatePressure IMPORT p ≫= translatePressure EXPORT.

(** The float of a whole number (exact below 2^53). *)
Definition float_of_Z (n : Z) : float :=
  if n <? 0 then (- PrimFloat.of_uint63 (Uint63.of_Z (- n)))%float
  else PrimFloat.of_uint63 (Uint63.of_Z n).

(** Both round trips return the whole number [n] they started from. *)
Definition exact_at (n : Z) : bool :=
  returns_equal (heightRoundTrip (float_of_Z n)) (float_of_Z n)
  && returns_equal (pressureRoundTrip (float_of_Z n)) (float_of_Z n).

(** [exact_at] on the [2^k] whole numbers from [lo] on. *)
Fixpoint exact_on_block (lo : Z) (k : nat) : bool :=
  match k with
  | O => exact_at lo
  | S k' => exact_on_block lo k' && exact_on_block (lo + 2 ^ Z.of_nat k') k'
  end.

(** [translateCol(IMPORT, translateCol(EXPORT, c))] *)
Definition colRoundTrip (py_eval : string -> res PyVal) (c : PyVal) : res PyVal :=
  translateCol py_eval EXPORT c ≫= translateCol py_eval IMPORT.

(** The column ID of a grid cell: leading digit, then the two axis
    indices, as the f-strings of the controller print them. *)
Definition columnID (c0 x y : Z) : string := Py.str c0 +:+ Py.str x +:+ Py.str y.

(** The rectangular grid of IDs '2{x}{y}', x below nx and y below ny. *)
Definition rectangularGrid (nx ny : Z) : list string :=
  flat_map (fun x => map (fun y => columnID 2 x y) (range ny)) (range nx).

(** The cells one unit step away from (x, y) in exactly one axis, no
    coordinate negative. *)
Definition adjacentCells (x y : Z) : list (Z * Z) :=
  List.filter (fun c => (0 <=? c.1) && (0 <=? c.2))
    [(x + 1, y); (x - 1, y); (x, y - 1); (x, y + 1)].


(** The value of a decimal digit character. *)
Definition digit_value (c : ascii) : Z := Z.of_nat (nat_of_ascii c - 48).

(** The three-character column ID with the given digits. *)
Definition column_of (c0 x y : nat) : string :=
  String (ascii_of_nat (48 + c0))
    (String (ascii_of_nat (48 + x)) (String (ascii_of_nat (48 + y)) EmptyString)).

(** The neighbours of a column are its adjacent cells, in the order the
    controller lists them, and the column is not one of them. *)
Definition nearest_ok (column : string) (c0 x y : Z) : bool :=
  match nearestColumns column with
  | Ok near =>
      bool_decide (near = map (fun c => columnID c0 c.1 c.2) (adjacentCells x y))
      && bool_decide (column ∉ near)
  | Raise _ => false
  end.

(** The line feed that ends a line of a text file. *)
(** The line feed that ends a line of a text file. *)
Definition nl : string := String "010" EmptyString.

(** ** Example runs *)

Definition comparator_path : string := "/scum/input/VulcanCfgComparator.txt".
Definition log_path : string := "/scum/output/vul-runtime/vul-log.txt".
Definition latest_path : string := "/scum/vulcan_framework/vulcan_cfg.py".

(** The permanent configuration artifact of a run. *)
Definition cfg_path (run : string) : string :=
  "/scum/output/vul-runtime/vul-run-" +:+ run +:+ "-cfgFile.txt".

(** The side artifact of a run. *)
Definition modify_atm_path (run : string) : string :=
  "/scum/output/vul-runtime/vul-run-" +:+ run +:+ "-modify_atm.json".

(** A controller of the second generation, configured for column '200'. *)
Definition self_2_200 : controller :=
  {| masterDir := "/scum"; inputDir := "/scum/input"; outputDir := "/scum/output";
     vulcanRunType := USE_LATEST_VUL; currentRunID := "2-200";
     out_name := "vul"; modifyAtmFilePath := "" |}.

(** A controller on its initial run, configured for its second column. *)
Definition self_1_201 : controller :=
  {| masterDir := "/scum"; inputDir := "/scum/input"; outputDir := "/scum/output";
     vulcanRunType := INITIAL_RUN; currentRunID := "1-201";
     out_name := "vul"; modifyAtmFilePath := "" |}.

(** A controller of the second generation, configured for its second
    column. *)
Definition self_2_201 : controller :=
  {| masterDir := "/scum"; inputDir := "/scum/input"; outputDir := "/scum/output";
     vulcanRunType := USE_LATEST_VUL; currentRunID := "2-201";
     out_name := "vul"; modifyAtmFilePath := "" |}.

(** The same, with a side artifact waiting. *)
Definition self_2_201_pending : controller :=
  {| masterDir := "/scum"; inputDir := "/scum/input"; outputDir := "/scum/output";
     vulcanRunType := USE_LATEST_VUL; currentRunID := "2-201";
     out_name := "vul"; modifyAtmFilePath := modify_atm_path "2-201" |}.

(** A ledger whose run events are those of generation [g] (the events of
    earlier generations left out): up to the configuration of its first
    column, up to the completion of that column, and up to the
    configuration of its second column. *)
Definition ledger_first_column (g : string) : list string :=
  [ "Virgin Vulcan = False" +:+ nl; nl;
    "Vulcan controller created: 1700000000.0" +:+ nl;
    "Vulcan Python interpreter: /usr/bin/python3" +:+ nl;
    "Vulcan initialized: 1700000000.1" +:+ nl; nl; nl;
    "Vulcan full run execute: 1700000000.2" +:+ nl;
    "Vulcan column run: " +:+ g +:+ "-200" +:+ nl;
    "Vulcan configured: 1700000000.3" +:+ nl;
    "Run " +:+ g +:+ "-200" +:+ nl;
    "CfgFilePath: " +:+ cfg_path (g +:+ "-200") +:+ nl ].

Definition ledger_after_generation (g : string) : list string :=
  ledger_first_column g ++
  [ "Vulcan column execute: 1700000000.4" +:+ nl;
    "Vulcan column complete: 1700000009.0" +:+ nl;
    "Run " +:+ g +:+ "-200" ].

Definition ledger_second_column (g : string) : list string :=
  ledger_first_column g ++
  [ "Vulcan column execute: 1700000000.4" +:+ nl;
    "Vulcan column complete: 1700000009.0" +:+ nl;
    "Run " +:+ g +:+ "-200" +:+ nl;
    "Vulcan column run: " +:+ g +:+ "-201" +:+ nl;
    "Vulcan configured: 1700000009.1" +:+ nl;
    "Run " +:+ g +:+ "-201" +:+ nl;
    "CfgFilePath: " +:+ cfg_path (g +:+ "-201") +:+ nl ].

(** The ignore-list file. *)
Definition comparator_lines : list string := [ "run_num" +:+ nl; "run_type" +:+ nl ].

(** A configuration artifact; [nz] and [run_num] are the texts after
    'nz = ' and 'run_num = '. *)
Definition cfg_lines (nz run_num : string) : list string :=
  [ "# ===== VULCAN base parameters =====" +:+ nl;
    "out_name = 'vul'   # output name" +:+ nl;
    nl;
    "nz = " +:+ nz +:+ nl;
    "P_b = 100000" +:+ nl;
    "run_type ='INITIAL_RUN'" +:+ nl;
    "run_num = " +:+ run_num ].

(** The files at the dedup check of the second column of generation
    [g]: the artifact of the first column is [previous], the working
    artifact is [latest]. *)
Definition files_second_column (g : string) (previous latest : list string) : store :=
  {[ comparator_path := comparator_lines;
     log_path := ledger_second_column g;
     cfg_path (g +:+ "-200") := previous;
     latest_path := latest ]}.

(** The ledger of an initial run of one column followed by a second
    generation, up to the configuration of its second column. *)
Definition ledger_two_generations : list string :=
  ledger_first_column "1" ++
  [ "Vulcan column execute: 1700000000.4" +:+ nl;
    "Vulcan column complete: 1700000009.0" +:+ nl;
    "Run 1-200" +:+ nl; nl;
    "Vulcan full run execute: 1700000100.2" +:+ nl;
    "Vulcan column run: 2-200" +:+ nl;
    "Vulcan configured: 1700000100.3" +:+ nl;
    "Run 2-200" +:+ nl;
    "CfgFilePath: " +:+ cfg_path "2-200" +:+ nl;
    "Vulcan column execute: 1700000100.4" +:+ nl;
    "Vulcan column complete: 1700000109.0" +:+ nl;
    "Run 2-200" +:+ nl;
    "Vulcan column run: 2-201" +:+ nl;
    "Vulcan configured: 1700000109.1" +:+ nl;
    "Run 2-201" +:+ nl;
    "CfgFilePath: " +:+ cfg_path "2-201" +:+ nl ].

(** The files at the dedup check of that second column: the artifact of
    the initial run has 19 levels, the two of the second generation 20. *)
Definition files_two_generations : store :=
  {[ comparator_path := comparator_lines;
     log_path := ledger_two_generations;
     cfg_path "1-200" := cfg_lines "19" "'1-200'";
     cfg_path "2-200" := cfg_lines "20" "'2-200'";
     latest_path := cfg_lines "20" "'2-201'" ]}.




(** The map both example artifacts parse to once 'run_num' and
    'run_type' are removed. *)
Definition example_vars : gmap string PyVal :=
  {[ "out_name" := PStr "vul"; "nz" := PInt 20; "P_b" := PInt 100000 ]}.

(** The same with 19 levels. *)
Definition example_vars_19 : gmap string PyVal :=
  {[ "out_name" := PStr "vul"; "nz" := PInt 19; "P_b" := PInt 100000 ]}.

(** The same with 21 levels. *)
Definition example_vars_21 : gmap string PyVal :=
  {[ "out_name" := PStr "vul"; "nz" := PInt 21; "P_b" := PInt 100000 ]}.

(** ** Further parts of the controller *)

(** The name a line assigns, as [cfgVulcan] and [checkDupLinesToDict]
    read it: [line.split("=")[0].strip()]. *)
Definition lineKey (line : string) : string := Py.strip (Py.split0 "=" line).

(** The number of neighbours [nearestColumns] lists for the cell (x, y):
    the two upward steps always, a downward step where the coordinate
    is positive. *)
Definition neighbourCount (x y : Z) : nat :=
  (2 + (if (0 <? x)%Z then 1 else 0) + (if (0 <? y)%Z then 1 else 0))%nat.

(** The neighbours of a column are as many as [neighbourCount] says, and
    each neighbour of three characters has the column among its own. *)
Definition nearest_symmetric (column : string) (x y : Z) : bool :=
  match nearestColumns column with
  | Ok near =>
      (length near =? neighbourCount x y)%nat
      && forallb (fun n => if (String.length n =? 3)%nat
                           then match nearestColumns n with
                                | Ok back => bool_decide (column ∈ back)
                                | Raise _ => false
                                end
                           else true) near
  | Raise _ => false
  end.

(** ** Export for MISTRA: averaging over the neighbours *)

(** What [vulcanExport] keeps of one column's output before averaging,
    [rawColumnDict], and what it reports, [avgColumnDict]. *)
Record columnData : Type := {
  lowerHeight : float;
  upperHeight : float;
  lowerPressure : float;
  upperPressure : float;
  levelTemperature : float;
  numberDensity : gmap string float;
  index : Z;
}.

(** [max(l, key=key)]: the first of the greatest; ValueError on an empty
    sequence. *)
Fixpoint max_by {A} (key : A -> nat) (l : list A) : option A :=
  match l with
  | [] => None
  | a :: l' =>
      match max_by key l' with
      | None => Some a
      | Some b => if (key b <=? key a)%nat then Some a else Some b
      end
  end.

Section MistraAverage.

(** [np.average] on a list of numbers. *)
Variable average : list float -> float.

(** [rawOutputAll[col]] *)
Definition rawColumn (rawOutputAll : gmap string columnData) (col : string) : res columnData :=
  match rawOutputAll !! col with
  | Some c => Ok c
  | None => Raise KeyError
  end.

(** [[rawOutputAll[col]['Number Density'][sp] for col in nearestListColumns]] *)
Definition speciesSamples (cols : list columnData) (sp : string) : res (list float) :=
  res_mapM (fun c => match numberDensity c !! sp with
                     | Some v => Ok v
                     | None => Raise KeyError
                     end) cols.

(** One round of the averaging loop of [vulcanExport] for MISTRA: the
    [avgColumnDict] of [column].  The neighbour set is walked in the
    order [elements] gives. *)
Definition exportMistraColumn (rawOutputAll : gmap string columnData)
  (latestRunColumns : list string) (column : string) : res columnData :=
  nearest ← nearestListColumns column latestRunColumns;
  cols ← res_mapM (rawColumn rawOutputAll) (elements nearest);
  let avgLowerHeight := average (map lowerHeight cols) in
  let avgUpperHeight := average (map upperHeight cols) in
  let avgLowerPressure := average (map lowerPressure cols) in
  let avgUpperPressure := average (map upperPressure cols) in
  let avgLevelTemperature := average (map levelTemperature cols) in
  useSpCol ← match max_by (fun c => size (numberDensity c)) cols with
             | Some c => Ok c
             | None => Raise ValueError
             end;
  avgSp ← res_mapM (fun sp => samples ← speciesSamples cols sp; Ok (sp, average samples))
                   (map fst (map_to_list (numberDensity useSpCol)));
  Ok {| lowerHeight := avgLowerHeight;
        upperHeight := avgUpperHeight;
        lowerPressure := avgLowerPressure;
        upperPressure := avgUpperPressure;
        levelTemperature := avgLevelTemperature;
        numberDensity := list_to_map avgSp;
        index := 0 |}.

End MistraAverage.

(** ** Config assembler: the overrides written into the artifact *)

(** One line of [cfgData] under one override: a line that assigns
    [varName] is replaced by [f'{varName} = {newVar}\n']. *)
Definition overrideLine (varName newVar line : string) : string :=
  if String.eqb (lineKey line) varName then varName +:+ " = " +:+ newVar +:+ nl
  else line.

(** The last loop of [cfgVulcan]: every override of [combineDict] (the
    value as the f-string prints it) passes over all the lines of
    [cfgData]. *)
Definition applyOverrides (combineDict : list (string * string)) (cfgData : list string)
  : list string :=
  foldl (fun data kv => map (overrideLine kv.1 kv.2) data) cfgData combineDict.

(** [s[-3:]] *)
Definition last3 (s : string) : string :=
  String.substring (String.length s - 3) 3 s.

(** [previousRunID] of [cfgVulcan] on a USE_LATEST_VUL run:
    [f'{int(self.currentRunID[0]) - 1}-{self.currentRunID[-3:]}']. *)
Definition previousRunID (currentRunID : string) : res string :=
  g ← int_at currentRunID 0;
  Ok (Py.str (g - 1) +:+ "-" +:+ last3 currentRunID).

(** The output file the artifact names as initial condition,
    [previousRunFilePath]. *)
Definition previousRunFilePath (self : controller) : res string :=
  previous ← previousRunID (currentRunID self);
  Ok (Py.path_join (VulcanRuntimeDir self)
        (out_name self +:+ "-run-" +:+ previous +:+ "-output.vul")).

(** [s[1:-1]] *)
Definition slice_inner (s : string) : string :=
  String.substring 1 (String.length s - 2) s.

(** The out_name [cfgVulcan] reads back from the lines it has written:
    the value of the first line that assigns 'out_name', stripped,
    without its first and last characters. *)
Definition outNameOf (cfgData : list string) : res string :=
  line ← Py.index (List.filter (fun line => String.eqb (lineKey line) "out_name") cfgData) 0;
  value ← Py.index (Py.split "=" line) 1;
  Ok (slice_inner (Py.strip value)).

(** The controller at the next column of [runFullVulcan]: the run
    identifier is updated, the other attributes are as the column
    before left them. *)
Definition nextColumn (self : controller) (column : string) : controller :=
  {| masterDir := masterDir self; inputDir := inputDir self; outputDir := outputDir self;
     vulcanRunType := vulcanRunType self;
     currentRunID := Py.split0 "-" (currentRunID self) +:+ "-" +:+ column;
     out_name := out_name self; modifyAtmFilePath := modifyAtmFilePath self |}.

(** The controller after the injection of [cfgVulcan]:
    [self.modifyAtmFilePath] is what the loop over the inbound mapping
    left. *)
Definition afterImport (self : controller) (inj : injection) : controller :=
  {| masterDir := masterDir self; inputDir := inputDir self; outputDir := outputDir self;
     vulcanRunType := vulcanRunType self; currentRunID := currentRunID self;
     out_name := out_name self; modifyAtmFilePath := inj_modifyAtmFilePath inj |}.

(** [s.replace(' ', '')] *)
Fixpoint remove_spaces (s : string) : string :=
  match s with
  | EmptyString => EmptyString
  | String c s' => if Ascii.eqb c " " then remove_spaces s' else String c (remove_spaces s')
  end.

(** [column[1:]] *)
Definition drop_first (column : string) : string :=
  match column with
  | EmptyString => EmptyString
  | String _ rest => rest
  end.

(** The positions a key of VulcanPopulator.json lists,
    [positionString.replace(' ','').split(',')]. *)
Definition populatorPositions (positionString : string) : list string :=
  Py.split "," (remove_spaces positionString).

(** The INITIAL_RUN branch of [cfgVulcan]: [combineDict] after the loop
    over [self.vulcanPopulator.items()].  Values are held as the text
    the f-string prints; [{**a, **b}] is [b ∪ a]. *)
Definition populate (controllerCfgVulcan : gmap string string)
  (vulcanPopulator : list (string * gmap string string)) (column : string)
  : gmap string string :=
  foldl (fun combineDict entry =>
           foldl (fun combineDict pos =>
                    if String.eqb pos (drop_first column)
                    then entry.2 ∪ controllerCfgVulcan
                    else combineDict)
                 combineDict (populatorPositions entry.1))
        controllerCfgVulcan vulcanPopulator.

(** A key of the populator lists the position of the column. *)
Definition listsColumn (positionString column : string) : bool :=
  existsb (fun pos => String.eqb pos (drop_first column)) (populatorPositions positionString).

(** A key of the inbound mapping names a height or a pressure. *)
Definition namesUnit (key : string) : bool :=
  Py.contains "Height" key || Py.contains "Pressure" key.

(** ** Export: what is read of one output file *)

(** What [vulcanExport] reads of a pickled output: the level grid
    ('atm': 'zco', 'pico', 'Tco'), the species names, and per level the
    number density of every species ('variable': 'species', 'y', a
    two-dimensional array given by its rows). *)
Record vulData : Type := {
  zco : list float;
  pico : list float;
  Tco : list float;
  species : list string;
  y : list (list float);
}.

(** The value of a translation used as a number; the export direction
    never returns [None]. *)
Definition number (r : option float) : res float :=
  match r with
  | Some v => Ok v
  | None => Raise TypeError
  end.

(** [l.index(x)] on a list of strings *)
Fixpoint list_index (x : string) (l : list string) : res nat :=
  match l with
  | [] => Raise ValueError
  | a :: l' => if String.eqb a x then Ok 0%nat else i ← list_index x l'; Ok (S i)
  end.

(** The dict built by the loop
    [for sp in species: spDict[sp] = y[:, species.index(sp)][level]]. *)
Definition speciesAt (vul_data : vulData) (level : nat) : res (gmap string float) :=
  items ← res_mapM (fun sp =>
                      j ← list_index sp (species vul_data);
                      row ← Py.index (y vul_data) level;
                      v ← Py.index row j;
                      Ok (sp, v)) (species vul_data);
  Ok (foldl (fun spDict kv => <[kv.1 := kv.2]> spDict) ∅ items).

(** [rawColumnDict] of the export for MISTRA: the six quantities of the
    first level of the column.  (It has no 'index'.) *)
Record rawColumnDict : Type := {
  raw_lowerHeight : float;
  raw_upperHeight : float;
  raw_lowerPressure : float;
  raw_upperPressure : float;
  raw_levelTemperature : float;
  raw_numberDensity : gmap string float;
}.

Definition rawColumnOf (vul_data : vulData) : res rawColumnDict :=
  let heightList := zco vul_data in
  rawLowerHeight ← Py.index heightList 0;
  rawUpperHeight ← Py.index heightList 1;
  upper ← number (translateHeight EXPORT rawUpperHeight);
  lower ← number (translateHeight EXPORT rawLowerHeight);
  let pressureList := pico vul_data in
  rawLowerPressure ← Py.index pressureList 0;
  rawUpperPressure ← Py.index pressureList 1;
  upperP ← number (translatePressure EXPORT rawUpperPressure);
  lowerP ← number (translatePressure EXPORT rawLowerPressure);
  rawLevelTemperature ← Py.index (Tco vul_data) 0;
  rawSpDict ← speciesAt vul_data 0;
  Ok {| raw_lowerHeight := lower; raw_upperHeight := upper;
        raw_lowerPressure := lowerP; raw_upperPressure := upperP;
        raw_levelTemperature := rawLevelTemperature;
        raw_numberDensity := rawSpDict |}.

(** The six quantities of a column dict, its 'index' left out. *)
Definition quantities (c : columnData) : rawColumnDict :=
  {| raw_lowerHeight := lowerHeight c; raw_upperHeight := upperHeight c;
     raw_lowerPressure := lowerPressure c; raw_upperPressure := upperPressure c;
     raw_levelTemperature := levelTemperature c;
     raw_numberDensity := numberDensity c |}.

(** ** Export for the perturbation module *)

(** [np.where(l == x)[0][0]]: the position of the first element equal
    to [x]. *)
Fixpoint where_first (x : float) (l : list float) : res nat :=
  match l with
  | [] => Raise IndexError
  | a :: l' => if PrimFloat.eqb a x then Ok 0%nat else i ← where_first x l'; Ok (S i)
  end.

(** [l[i - 1]] for a position [i] of [l]: position 0 gives index -1,
    the last element. *)
Definition index_before {A} (l : list A) (i : nat) : res A :=
  match i with
  | O => Py.index_last l
  | S j => Py.index l j
  end.

(** One round of the loop of [vulcanExport] for PERTURB, once
    [vul_data] is loaded: the level under the first grid height above
    [height] (in VULCAN's unit). *)
Definition perturbColumn (vul_data : vulData) (height : float) : res columnData :=
  let heightList := zco vul_data in
  upperHeight ← Py.index (List.filter (fun x => PrimFloat.ltb height x) heightList) 0;
  upperIndex ← where_first upperHeight heightList;
  lowerHeight ← index_before heightList upperIndex;
  lowerHeightIndex ← where_first lowerHeight heightList;
  upper ← number (translateHeight EXPORT upperHeight);
  lower ← number (translateHeight EXPORT lowerHeight);
  let pressureList := pico vul_data in
  lowerPressure ← Py.index pressureList lowerHeightIndex;
  upperPressure ← Py.index pressureList (lowerHeightIndex + 1);
  upperP ← number (translatePressure EXPORT upperPressure);
  lowerP ← number (translatePressure EXPORT lowerPressure);
  levelTemperature ← Py.index (Tco vul_data) lowerHeightIndex;
  spDict ← speciesAt vul_data lowerHeightIndex;
  Ok {| lowerHeight := lower; upperHeight := upper;
        lowerPressure := lowerP; upperPressure := upperP;
        levelTemperature := levelTemperature;
        numberDensity := spDict; index := Z.of_nat lowerHeightIndex |}.

(** The inner loop [for column, path in latestRunZipped]: pairs are
    taken off the iterator until the column matches; the matching path,
    if any, and what is left of the iterator. *)
Fixpoint seek (columnInterest : string) (latestRunZipped : list (string * string))
  : option string * list (string * string) :=
  match latestRunZipped with
  | [] => (None, [])
  | (column, path) :: rest =>
      if String.eqb columnInterest column then (Some path, rest)
      else seek columnInterest rest
  end.

(** [pickle.load(open(path, 'rb'))] *)
Definition pickle_load (pickles : gmap string vulData) (path : string) : res vulData :=
  match pickles !! path with
  | Some vul_data => Ok vul_data
  | None => Raise FileNotFoundError
  end.

(** The loop over [columnInterestList].  [latestRunZipped] is one
    iterator for all the rounds and [vul_data] a local of
    [vulcanExport], unbound ([None]) until a round finds its column.
    The result lists the entries of [package] in the order they are
    assigned, keyed by the internal column string. *)
Fixpoint perturbColumns (pickles : gmap string vulData) (height : float)
  (columnInterestList : list string) (latestRunZipped : list (string * string))
  (vul_data : option vulData) : res (list (string * columnData)) :=
  match columnInterestList with
  | [] => Ok []
  | columnInterest :: rest =>
      let '(found, remaining) := seek columnInterest latestRunZipped in
      vul_data' ← match found with
                  | Some path => d ← pickle_load pickles path; Ok (Some d)
                  | None => Ok vul_data
                  end;
      d ← match vul_data' with
          | Some d => Ok d
          | None => Raise UnboundLocalError
          end;
      columnDict ← perturbColumn d height;
      more ← perturbColumns pickles height rest remaining vul_data';
      Ok ((columnInterest, columnDict) :: more)
  end.

(** The levels of a grid grow strictly with the index. *)
Fixpoint strictlyIncreasing (l : list float) : bool :=
  match l with
  | [] => true
  | x :: l' => forallb (fun z => PrimFloat.ltb x z) l' && strictlyIncreasing l'
  end.

(** ** Example output for the export *)

(** An average for the examples: the sum from the left over the count. *)
Definition mean (l : list float) : float :=
  (fold_left PrimFloat.add l 0 / float_of_Z (Z.of_nat (length l)))%float.

(** The raw output of a column whose first level ends at [height], with
    two species. *)
Definition column_output (height OH : float) : columnData :=
  {| lowerHeight := 0%float; upperHeight := height;
     lowerPressure := 1000%float; upperPressure := 900%float;
     levelTemperature := 300%float;
     numberDensity := {[ "OH" := OH; "H2O" := 2%float ]};
     index := 0 |}.


(** The output of a column with three levels and two species. *)
Definition example_output : vulData :=
  {| zco := [0; 50000; 120000; 200000]%float;
     pico := [1000000; 900000; 800000; 700000]%float;
     Tco := [300; 290; 280]%float;
     species := ["OH"; "H2O"];
     y := [[1; 2]; [3; 4]; [5; 6]]%float |}.

(** The same column with a warmer first level. *)
Definition example_output_warm : vulData :=
  {| zco := [0; 50000; 120000; 200000]%float;
     pico := [1000000; 900000; 800000; 700000]%float;
     Tco := [310; 290; 280]%float;
     species := ["OH"; "H2O"];
     y := [[1; 2]; [3; 4]; [5; 6]]%float |}.

(** The output files of a run of two columns, as listed and as loaded. *)
Definition example_zipped : list (string * string) :=
  [ ("200", "/scum/output/vul-runtime/vul-run-1-200-output.vul");
    ("201", "/scum/output/vul-runtime/vul-run-1-201-output.vul") ].

Definition example_pickles : gmap string vulData :=
  {[ "/scum/output/vul-runtime/vul-run-1-200-output.vul" := example_output;
     "/scum/output/vul-runtime/vul-run-1-201-output.vul" := example_output_warm ]}.

(** A controller of the second generation after its first column, for
    which a side artifact was written. *)
Definition self_2_200_pending : controller :=
  {| masterDir := "/scum"; inputDir := "/scum/input"; outputDir := "/scum/output";
     vulcanRunType := USE_LATEST_VUL; currentRunID := "2-200";
     out_name := "vul"; modifyAtmFilePath := modify_atm_path "2-200" |}.

(** * Properties *)

(** ** The primitives on examples *)

Example strip_line : Py.strip "  run_num = '1-200'  # id  " = "run_num = '1-200'  # id".
Proof. reflexivity. Qed.

Example split_eq : Py.split "=" "a = 'b=c'" = ["a "; " 'b"; "c'"].
Proof. reflexivity. Qed.

Example split_sep_word :
  Py.split "CfgFilePath: " "CfgFilePath: /out/a.txt" = [""; "/out/a.txt"].
Proof. reflexivity. Qed.

Example str_examples :
  (Py.str 0, Py.str 10, Py.str (-1), Py.str 207) = ("0", "10", "-1", "207").
Proof. reflexivity. Qed.

Example path_join_examples :
  (Py.path_join "/m" "vulcan_framework/",
   Py.path_join "/m/vulcan_framework/" "vulcan_cfg.py",
   Py.path_join "/m" "/abs")
  = ("/m/vulcan_framework/", "/m/vulcan_framework/vulcan_cfg.py", "/abs").
Proof. reflexivity. Qed.

Example literal_eval_examples :
  (literal_eval "12", literal_eval "'1-200'", literal_eval "(2,0,2)",
   literal_eval "007", literal_eval "@@")
  = (Ok (PInt 12), Ok (PStr "1-200"), Ok (PTuple [PInt 2; PInt 0; PInt 2]),
     Raise SyntaxError, Raise SyntaxError).
Proof. reflexivity. Qed.

Lemma res_bind_Ok {A B} (f : A -> res B) (m : res A) (b : B) :
  m ≫= f = Ok b -> exists a, m = Ok a /\ f a = Ok b.
Proof. destruct m as [a|e]; simpl; [eauto | discriminate]. Qed.

(** Case analysis on a whole number in a short interval. *)
Lemma Z_interval_cases (P : Z -> Prop) (lo : Z) (k : nat) :
  Forall P (map (fun i => lo + Z.of_nat i) (seq 0 k)) ->
  forall z, lo <= z < lo + Z.of_nat k -> P z.
Proof.
  intros Hall z Hz. rewrite List.Forall_forall in Hall. apply Hall.
  apply in_map_iff. exists (Z.to_nat (z - lo)). split; [lia|].
  apply in_seq. lia.
Qed.

Lemma split_go_nonempty sep s : forall skip, Py.split_go sep skip s <> [].
Proof.
  induction s as [|c s IH]; intros skip; simpl; [discriminate|].
  destruct skip; [|apply IH].
  destruct (Py.startswith sep (String c s)); [discriminate|].
  destruct (Py.split_go sep 0 s); discriminate.
Qed.

Lemma split_nonempty sep s : Py.split sep s <> [].
Proof. apply split_go_nonempty. Qed.

(** ** Translation layer: units *)

Lemma exact_on_block_spec (k : nat) :
  forall lo n, exact_on_block lo k = true ->
    lo <= n < lo + 2 ^ Z.of_nat k -> exact_at n = true.
Proof.
  induction k as [|k IH]; intros lo n Hb Hn.
  - simpl in Hb. change (2 ^ Z.of_nat 0) with 1 in Hn.
    replace n with lo by lia. exact Hb.
  - simpl in Hb. apply andb_prop in Hb as [Hl Hr].
    rewrite Nat2Z.inj_succ, Z.pow_succ_r in Hn by lia.
    destruct (Z_lt_dec n (lo + 2 ^ Z.of_nat k)).
    + apply (IH lo); [exact Hl | lia].
    + apply (IH (lo + 2 ^ Z.of_nat k)); [exact Hr | lia].
Qed.

Lemma exact_up_to_2_17 : exact_on_block (-131072) 18 = true.
Proof. vm_compute. reflexivity. Qed.

(** C7, as the code has it: import multiplies by 100 (height) and by 10
    (pressure), export divides by the same constant, all in binary64
    arithmetic; for every whole number h with |h| <= 131072 the export
    of the import compares equal to h, for height and for pressure. *)
Theorem unit_round_trip_whole (n : Z) (Hn : -131072 <= n <= 131072) :
  (forall h : float,
      translateHeight IMPORT h = Some (h * 100)%float
      /\ translateHeight EXPORT h = Some (h / 100)%float
      /\ translatePressure IMPORT h = Some (h * 10)%float
      /\ translatePressure EXPORT h = Some (h / 10)%float)
  /\ returns_equal (heightRoundTrip (float_of_Z n)) (float_of_Z n) = true
  /\ returns_equal (pressureRoundTrip (float_of_Z n)) (float_of_Z n) = true.
Proof.
  split; [intros h; repeat split; reflexivity|].
  apply andb_prop. change (exact_at n = true).
  destruct (Z.eq_dec n 131072) as [->|Hne].
  - vm_compute. reflexivity.
  - apply (exact_on_block_spec 18 (-131072)); [exact exact_up_to_2_17 |].
    change (2 ^ Z.of_nat 18) with 262144. lia.
Qed.

Lemma unit_round_trip_whole_witness :
  (forall h : float,
      translateHeight IMPORT h = Some (h * 100)%float
      /\ translateHeight EXPORT h = Some (h / 100)%float
      /\ translatePressure IMPORT h = Some (h * 10)%float
      /\ translatePressure EXPORT h = Some (h / 10)%float)
  /\ returns_equal (heightRoundTrip (float_of_Z 7500)) (float_of_Z 7500) = true
  /\ returns_equal (pressureRoundTrip (float_of_Z 7500)) (float_of_Z 7500) = true.
Proof. apply (unit_round_trip_whole 7500). lia. Defined.

(** C7 as stated fails: the finite number 0x1.cac083126e979p-8 (the
    double nearest to 0.007) comes back one unit in the last place
    larger from the height round trip and from the pressure round trip,
    and the finite number 2^1023 comes back as infinity. *)
Lemma unit_round_trip_inexact :
  let h := 0x1.cac083126e979p-8%float in
  let big := 0x1p1023%float in
  is_finite h = true
  /\ heightRoundTrip h = Some 0x1.cac083126e97ap-8%float
  /\ returns_equal (heightRoundTrip h) h = false
  /\ pressureRoundTrip h = Some 0x1.cac083126e97ap-8%float
  /\ returns_equal (pressureRoundTrip h) h = false
  /\ is_finite big = true
  /\ heightRoundTrip big = Some infinity
  /\ pressureRoundTrip big = Some infinity.
Proof. vm_compute. repeat split; reflexivity. Qed.

(** ** Translation layer: columns *)

(** Joining the items of a tuple that starts with an integer raises:
    [str.join] takes strings only.  No evaluator is involved. *)
Lemma translateCol_int_tuple py_eval direction z items :
  direction = IMPORT \/ direction = EXPORT ->
  translateCol py_eval direction (PTuple (PInt z :: items)) = Raise TypeError.
Proof. intros [-> | ->]; reflexivity. Qed.

(** The import direction does work on a tuple of one-character strings. *)
Example translateCol_import_str_tuple py_eval :
  translateCol py_eval IMPORT (PTuple [PStr "2"; PStr "0"; PStr "2"]) = Ok (PStr "202").
Proof. reflexivity. Qed.

(** C6 at the column '202': the export direction returns the tuple of
    integers (2,0,2); the import direction applied to that tuple raises
    TypeError, so the round trip returns nothing, from the internal
    string as well as from the external tuple. *)
Theorem translateCol_round_trip_raises :
  translateCol literal_eval EXPORT (PStr "202") = Ok (PTuple [PInt 2; PInt 0; PInt 2])
  /\ translateCol literal_eval IMPORT (PTuple [PInt 2; PInt 0; PInt 2]) = Raise TypeError
  /\ colRoundTrip literal_eval (PStr "202") = Raise TypeError
  /\ colRoundTrip literal_eval (PTuple [PInt 2; PInt 0; PInt 2]) = Raise TypeError.
Proof. repeat split; reflexivity. Qed.

(** ** Config assembler: injection *)

(** The two import conversions differ by a factor of ten. *)
Example import_conversions :
  (translatePressure IMPORT 5, translateHeight IMPORT 5) = (Some 50%float, Some 500%float).
Proof. reflexivity. Qed.

(** C4 at the inbound mapping {'200': {'lowerPressure': 5.0}} for column
    '200' of a USE_LATEST_VUL run: the value written to the modify_atm
    side artifact is 500.0, the height conversion, where the pressure
    import conversion gives 50.0. *)
Theorem cfgVulcan_pressure_uses_height_conversion :
  cfgVulcan_import literal_eval self_2_200 "200" [(PStr "200", [("lowerPressure", 5%float)])]
  = Ok {| inj_modifyAtmFilePath := modify_atm_path "2-200";
          inj_modify_atm := Some [("lowerPressure", 500%float)];
          inj_newValue := Some 500%float |}
  /\ translatePressure IMPORT 5 = Some 50%float.
Proof. split; reflexivity. Qed.

(** Every pressure-named key that is not height-named gets the height
    conversion, whatever the evaluator and the value. *)
Lemma translateUpdateDict_pressure key value newValue :
  Py.contains "Height" key = false ->
  Py.contains "Pressure" key = true ->
  translateUpdateDict newValue [(key, value)]
  = Ok ([(key, (value * 100)%float)], Some (value * 100)%float).
Proof. intros Hh Hp. simpl. rewrite Hh, Hp. reflexivity. Qed.

(** ** Column scheduler: the grid *)

(** The grid is square on the first dimension; the second is not read. *)
Lemma generateColumns_square nx rest :
  generateColumns (nx :: rest) = Ok (rectangularGrid nx nx).
Proof. reflexivity. Qed.

(** On a square world of side at most ten the IDs are the grid's, one
    per cell, none repeated. *)
Lemma generateColumns_square_unique n :
  0 <= n <= 10 ->
  generateColumns [n; n] = Ok (rectangularGrid n n)
  /\ length (rectangularGrid n n) = Z.to_nat (n * n)
  /\ NoDup (rectangularGrid n n).
Proof.
  intros Hn. split; [reflexivity|].
  apply (Z_interval_cases
           (fun m => length (rectangularGrid m m) = Z.to_nat (m * m)
                     /\ NoDup (rectangularGrid m m))
           0 11); [|lia].
  repeat (constructor;
          [split; [vm_compute; reflexivity
                  | apply (bool_decide_eq_true_1 _); vm_compute; reflexivity]|]).
  constructor.
Qed.

(** IDs repeat on a wider world: cells (1,11) and (11,1) are both '2111'. *)
Example columnID_collision : columnID 2 1 11 = columnID 2 11 1.
Proof. reflexivity. Qed.

(** C5 at atmosphereDim = [2, 3]: four IDs come back, the 2 x 2 grid;
    the 2 x 3 grid has six. *)
Theorem generateColumns_ignores_second_dimension :
  generateColumns [2; 3] = Ok ["200"; "201"; "210"; "211"]
  /\ rectangularGrid 2 3 = ["200"; "201"; "202"; "210"; "211"; "212"].
Proof. split; reflexivity. Qed.

(** ** Column scheduler: the generation *)

Lemma split0_generation g column :
  1 <= g <= 10 -> Py.split0 "-" (Py.str g +:+ "-" +:+ column) = Py.str g.
Proof.
  intros Hg. revert column.
  apply (Z_interval_cases
           (fun g => forall column, Py.split0 "-" (Py.str g +:+ "-" +:+ column) = Py.str g)
           1 10); [|lia].
  repeat (constructor; [intros column; vm_compute; reflexivity|]). constructor.
Qed.

Lemma runIDs_generation G :
  (forall column, Py.split0 "-" (G +:+ "-" +:+ column) = G) ->
  forall columnsList currentRunID,
    Py.split0 "-" currentRunID = G ->
    runIDs currentRunID columnsList = map (fun column => G +:+ "-" +:+ column) columnsList.
Proof.
  intros HG columnsList. induction columnsList as [|column rest IH]; intros cur Hcur.
  - reflexivity.
  - simpl. rewrite Hcur. f_equal. apply IH, HG.
Qed.

Lemma run_line_generation g tail :
  0 <= g <= 9 ->
  (Py.char_at ("Run " +:+ Py.str g +:+ "-" +:+ tail) 4 ≫= Py.int_of_char) = Ok g.
Proof.
  intros Hg.
  apply (Z_interval_cases
           (fun g => (Py.char_at ("Run " +:+ Py.str g +:+ "-" +:+ tail) 4 ≫= Py.int_of_char)
                     = Ok g)
           0 10); [|lia].
  repeat (constructor; [vm_compute; reflexivity|]). constructor.
Qed.

(** X27: on a run that is neither INITIAL_RUN nor NO_RUN, when the last
    'Run {g}-{column}' event of the ledger records a one-digit
    generation g (0 to 9), [vulcanOutput] sets the run identifier to
    '{g+1}-' and every run identifier of the pass is '{g+1}-{column}'. *)
Theorem generation_advances_one_digit
  (fs : store) (self : controller) (lines : list string) (g : Z) (tail : string) :
  vulcanRunType self <> INITIAL_RUN ->
  vulcanRunType self <> NO_RUN ->
  readlines fs (VulcanRuntimeLogFilePath self) = Ok lines ->
  last (List.filter isRunLine lines) = Some ("Run " +:+ Py.str g +:+ "-" +:+ tail) ->
  0 <= g <= 9 ->
  vulcanOutput fs self = Ok (Py.str (g + 1) +:+ "-")
  /\ forall columnsList,
       runIDs (Py.str (g + 1) +:+ "-") columnsList
       = map (fun column => Py.str (g + 1) +:+ "-" +:+ column) columnsList.
Proof.
  intros Hini Hno Hlog Hlast Hg. split.
  - unfold vulcanOutput.
    apply String.eqb_neq in Hini, Hno. rewrite Hini, Hno. simpl negb. cbv iota.
    rewrite Hlog. simpl. unfold Py.index_last. rewrite Hlast. simpl.
    pose proof (run_line_generation g tail Hg) as Hrun.
    destruct (Py.char_at _ 4) as [c|e]; simpl in Hrun |- *; [|discriminate].
    rewrite Hrun. reflexivity.
  - intros columnsList. apply runIDs_generation.
    + intros column. apply split0_generation. lia.
    + change (Py.str (g + 1) +:+ "-") with (Py.str (g + 1) +:+ "-" +:+ "").
      apply split0_generation. lia.
Qed.

Lemma generation_advances_one_digit_witness :
  let fs : store := {[ log_path := ledger_after_generation "1" ]} in
  vulcanOutput fs self_2_200 = Ok (Py.str (1 + 1) +:+ "-")
  /\ forall columnsList,
       runIDs (Py.str (1 + 1) +:+ "-") columnsList
       = map (fun column => Py.str (1 + 1) +:+ "-" +:+ column) columnsList.
Proof.
  apply (generation_advances_one_digit _ self_2_200
           (ledger_after_generation "1") 1 "200");
    [discriminate | discriminate | reflexivity | reflexivity | lia].
Defined.

(** C8 at a ledger whose last run event is 'Run 10-200'.  The
    controller reaches generation 10 by itself: after 'Run 9-200' the
    run identifier is '10-' and the pass records 'Run 10-200', ...
    The next controller reads the one character after 'Run ' and sets
    the run identifier to '2-', where the rule gives '11-': the
    identifiers '2-200', ... of generation 2 are issued a second
    time. *)
Theorem generation_ten_restarts_at_two :
  let fs9 : store := {[ log_path := ledger_after_generation "9" ]} in
  let fs : store := {[ log_path := ledger_after_generation "10" ]} in
  vulcanOutput fs9 self_2_200 = Ok "10-"
  /\ runIDs "10-" ["200"; "201"] = ["10-200"; "10-201"]
  /\ readlines fs (VulcanRuntimeLogFilePath self_2_200) = Ok (ledger_after_generation "10")
  /\ last (List.filter isRunLine (ledger_after_generation "10"))
     = Some ("Run " +:+ Py.str 10 +:+ "-" +:+ "200")
  /\ vulcanOutput fs self_2_200 = Ok "2-"
  /\ Py.startswith (Py.str (10 + 1) +:+ "-") "2-" = false
  /\ runIDs "2-" ["200"; "201"] = ["2-200"; "2-201"].
Proof. repeat split; reflexivity. Qed.

(** ** Column scheduler: neighbours *)

Lemma is_digit_inv (c : ascii) :
  is_digit c = true ->
  exists n : nat, (n < 10)%nat /\ c = ascii_of_nat (48 + n) /\ digit_value c = Z.of_nat n.
Proof.
  unfold is_digit, digit_value. intros H.
  apply andb_prop in H as [Hlo Hhi].
  apply Nat.leb_le in Hlo, Hhi.
  exists (nat_of_ascii c - 48)%nat. split; [lia | split; [| reflexivity]].
  replace (48 + (nat_of_ascii c - 48))%nat with (nat_of_ascii c) by lia.
  symmetry. apply ascii_nat_embedding.
Qed.

Lemma nearest_ok_digits :
  forallb (fun a => forallb (fun b => forallb (fun c =>
      nearest_ok (column_of a b c) (Z.of_nat a) (Z.of_nat b) (Z.of_nat c))
    (seq 0 10)) (seq 0 10)) (seq 0 10) = true.
Proof. vm_compute. reflexivity. Qed.

Lemma nearest_ok_digit (a b c : nat) :
  (a < 10)%nat -> (b < 10)%nat -> (c < 10)%nat ->
  nearest_ok (column_of a b c) (Z.of_nat a) (Z.of_nat b) (Z.of_nat c) = true.
Proof.
  intros Ha Hb Hc.
  assert (Hin : forall n, (n < 10)%nat -> In n (seq 0 10)) by (intros n Hn; apply in_seq; lia).
  pose proof (proj1 (forallb_forall _ _) nearest_ok_digits a (Hin a Ha)) as H1.
  pose proof (proj1 (forallb_forall _ _) H1 b (Hin b Hb)) as H2.
  exact (proj1 (forallb_forall _ _) H2 c (Hin c Hc)).
Qed.

Lemma res_mapM_Forall2 {A B} (f : A -> res B) (l : list A) (bs : list B) :
  res_mapM f l = Ok bs -> Forall2 (fun a b => f a = Ok b) l bs.
Proof.
  revert bs. induction l as [|a l IH]; intros bs H; simpl in H.
  - injection H as <-. constructor.
  - destruct (f a) as [b|e] eqn:Hfa; simpl in H; [|discriminate].
    destruct (res_mapM f l) as [bs'|e]; simpl in H; [|discriminate].
    injection H as <-. constructor; [exact Hfa | apply IH; reflexivity].
Qed.

Lemma Forall2_strengthen {A B} (P Q : A -> B -> Prop) (l : list A) (bs : list B) :
  Forall2 P l bs -> (forall a b, a ∈ l -> P a b -> Q a b) -> Forall2 Q l bs.
Proof.
  induction 1 as [|a b l bs Hab Hrest IH]; intros HPQ; constructor.
  - apply HPQ; [left | exact Hab].
  - apply IH. intros a' b' Hin. apply HPQ. right. exact Hin.
Qed.

(** C10: for a column ID of three digits, [nearestColumns] returns the
    IDs of the cells one unit step away in exactly one axis with no
    negative coordinate, at most four, and never the column itself; the
    neighbour set of the MISTRA export path holds only such neighbours
    that are columns of the latest run, and every list of samples handed
    to the average is read from those columns, never from the column's
    own values. *)
Theorem nearestColumns_excludes_self (d0 d1 d2 : ascii) :
  is_digit d0 = true -> is_digit d1 = true -> is_digit d2 = true ->
  let column := String d0 (String d1 (String d2 EmptyString)) in
  exists near,
    nearestColumns column = Ok near
    /\ near = map (fun c => columnID (digit_value d0) c.1 c.2)
                  (adjacentCells (digit_value d1) (digit_value d2))
    /\ (length near <= 4)%nat
    /\ (column ∉ near)
    /\ forall latestRunColumns, exists cols,
         nearestListColumns column latestRunColumns = Ok cols
         /\ (column ∉ cols)
         /\ (forall col, col ∈ cols <-> col ∈ near /\ col ∈ latestRunColumns)
         /\ forall rawOutputAll q samples,
              averagedSamples rawOutputAll q column latestRunColumns = Ok samples ->
              Forall2 (fun col v => col <> column /\ col ∈ near /\ col ∈ latestRunColumns
                                    /\ (rawOutputAll !! col) ≫= (fun d => d !! q) = Some v)
                      (elements cols) samples.
Proof.
  intros H0 H1 H2 column.
  destruct (is_digit_inv _ H0) as (a & Ha & Ea & Va).
  destruct (is_digit_inv _ H1) as (b & Hb & Eb & Vb).
  destruct (is_digit_inv _ H2) as (c & Hc & Ec & Vc).
  pose proof (nearest_ok_digit a b c Ha Hb Hc) as Hok.
  assert (Hcol : column = column_of a b c) by (unfold column, column_of; congruence).
  rewrite <- Hcol in Hok. unfold nearest_ok in Hok.
  destruct (nearestColumns column) as [near|e] eqn:Hnear; [|discriminate].
  apply andb_prop in Hok as [Heq Hnotin].
  apply bool_decide_eq_true in Heq, Hnotin.
  rewrite <- Va, <- Vb, <- Vc in Heq.
  exists near. split; [reflexivity|]. split; [exact Heq|].
  split.
  { rewrite Heq, length_map. unfold adjacentCells.
    etransitivity; [apply List.filter_length_le | simpl; lia]. }
  split; [exact Hnotin|].
  intros latestRunColumns.
  exists (list_to_set near ∩ list_to_set latestRunColumns).
  assert (Hmem : forall col,
             col ∈ (list_to_set near ∩ list_to_set latestRunColumns : gset string)
             <-> col ∈ near /\ col ∈ latestRunColumns).
  { intros col. rewrite elem_of_intersection, !elem_of_list_to_set. reflexivity. }
  split; [unfold nearestListColumns; rewrite Hnear; reflexivity|].
  split; [intros Hin; apply Hmem in Hin as [Hin _]; exact (Hnotin Hin)|].
  split; [exact Hmem|].
  intros rawOutputAll q samples Hs.
  unfold averagedSamples, nearestListColumns in Hs. rewrite Hnear in Hs. simpl in Hs.
  apply res_mapM_Forall2 in Hs.
  apply (Forall2_strengthen _ _ _ _ Hs). intros col v Hin Hv.
  apply elem_of_elements, Hmem in Hin as [Hin1 Hin2].
  split; [intros ->; exact (Hnotin Hin1)|]. split; [exact Hin1|]. split; [exact Hin2|].
  destruct ((rawOutputAll !! col) ≫= (fun d => d !! q)) as [w|]; [congruence | discriminate].
Qed.

Lemma nearestColumns_excludes_self_witness :
  let column := "211" in
  exists near,
    nearestColumns column = Ok near
    /\ near = map (fun c => columnID (digit_value "2") c.1 c.2)
                  (adjacentCells (digit_value "1") (digit_value "1"))
    /\ (length near <= 4)%nat
    /\ (column ∉ near)
    /\ forall latestRunColumns, exists cols,
         nearestListColumns column latestRunColumns = Ok cols
         /\ (column ∉ cols)
         /\ (forall col, col ∈ cols <-> col ∈ near /\ col ∈ latestRunColumns)
         /\ forall rawOutputAll q samples,
              averagedSamples rawOutputAll q column latestRunColumns = Ok samples ->
              Forall2 (fun col v => col <> column /\ col ∈ near /\ col ∈ latestRunColumns
                                    /\ (rawOutputAll !! col) ≫= (fun d => d !! q) = Some v)
                      (elements cols) samples.
Proof. exact (nearestColumns_excludes_self "2" "1" "1" eq_refl eq_refl eq_refl). Defined.

Example nearestColumns_examples :
  (nearestColumns "211", nearestColumns "200", nearestColumns "299", nearestColumns "20")
  = (Ok ["221"; "201"; "210"; "212"], Ok ["210"; "201"], Ok ["2109"; "289"; "298"; "2910"],
     Raise IndexError).
Proof. reflexivity. Qed.

(** ** Dedup engine *)

Section DedupProperties.

Variable py_eval : frame -> string -> res PyVal.
Variable py_ne : PyVal -> PyVal -> bool.

Lemma truthy_nonempty (dict : gmap string PyVal) :
  dict <> ∅ -> truthy (PyDict dict) = true.
Proof.
  intros Hne. unfold truthy. apply negb_true_iff, bool_decide_eq_false. exact Hne.
Qed.

(** The flag the comparison loop computes says that the two maps are
    identical. *)
Lemma statusFlag_spec (previous latest : gmap string PyVal) :
  statusFlag py_ne previous latest = true <-> sameVars py_ne previous latest.
Proof.
  unfold statusFlag, sameVars.
  rewrite andb_true_iff, bool_decide_eq_true, forallb_forall. split.
  - intros [Hdom Hall]. split; [exact Hdom|]. intros k v w Hk Hw.
    specialize (Hall (k, v)). simpl in Hall. rewrite Hw in Hall.
    apply negb_true_iff, Hall, list_elem_of_In, elem_of_map_to_list. exact Hk.
  - intros [Hdom Hall]. split; [exact Hdom|]. intros [k v] Hin. simpl.
    apply list_elem_of_In, elem_of_map_to_list in Hin.
    assert (Hw : is_Some (latest !! k)).
    { apply elem_of_dom. rewrite <- Hdom. apply elem_of_dom. eauto. }
    destruct Hw as [w Hw]. rewrite Hw. apply negb_true_iff. eauto.
Qed.

Lemma statusFlag_false (previous latest : gmap string PyVal) :
  ~ sameVars py_ne previous latest -> statusFlag py_ne previous latest = false.
Proof.
  intros Hn. destruct (statusFlag py_ne previous latest) eqn:E; [|reflexivity].
  apply statusFlag_spec in E. contradiction.
Qed.

(** One step of the scan over an earlier artifact that parses and differs. *)
Lemma scanPrevious_skip fs ign latest latestPath p rest dp :
  latest <> ∅ ->
  parsesTo py_eval fs ign p dp -> ~ sameVars py_ne dp latest ->
  scanPrevious py_eval py_ne fs ign latest latestPath (p :: rest)
  = scanPrevious py_eval py_ne fs ign latest latestPath rest.
Proof.
  intros Hne (lines & Hread & Hparse) Hdiff. simpl.
  rewrite Hread. simpl. rewrite Hparse. simpl.
  pose proof (truthy_nonempty latest Hne) as Ht. simpl in Ht. rewrite Ht. simpl.
  rewrite (statusFlag_false _ _ Hdiff). reflexivity.
Qed.

(** The scan stops at an earlier artifact that parses and is identical. *)
Lemma scanPrevious_hit fs ign latest latestPath p rest dp :
  latest <> ∅ ->
  parsesTo py_eval fs ign p dp -> sameVars py_ne dp latest ->
  scanPrevious py_eval py_ne fs ign latest latestPath (p :: rest)
  = Ok (Reuse p latestPath).
Proof.
  intros Hne (lines & Hread & Hparse) Hsame. simpl.
  rewrite Hread. simpl. rewrite Hparse. simpl.
  pose proof (truthy_nonempty latest Hne) as Ht. simpl in Ht. rewrite Ht. simpl.
  apply statusFlag_spec in Hsame. rewrite Hsame. reflexivity.
Qed.

Lemma scanPrevious_differing fs ign latest latestPath before rest :
  latest <> ∅ ->
  Forall (fun q => exists dq, parsesTo py_eval fs ign q dq /\ ~ sameVars py_ne dq latest)
         before ->
  scanPrevious py_eval py_ne fs ign latest latestPath (before ++ rest)%list
  = scanPrevious py_eval py_ne fs ign latest latestPath rest.
Proof.
  intros Hne Hall. induction Hall as [|q before (dq & Hq & Hdiff) _ IH].
  - reflexivity.
  - rewrite <- app_comm_cons, (scanPrevious_skip _ _ _ _ _ _ dq); assumption.
Qed.

(** With no side artifact waiting, readable ignore-list and ledger and a
    working artifact that parses into a non-empty map, [checkDup] is the
    scan of the earlier recorded paths. *)
Lemma checkDup_scan fs self ignoreLines logLines latest :
  path_exists fs (modifyAtmFilePath self) = false ->
  readlines fs (cfgComparator self) = Ok ignoreLines ->
  readlines fs (VulcanRuntimeLogFilePath self) = Ok logLines ->
  parsesTo py_eval fs (map Py.strip ignoreLines) (latestCfgFilePath self) latest ->
  latest <> ∅ ->
  checkDup py_eval py_ne fs self
  = scanPrevious py_eval py_ne fs (map Py.strip ignoreLines) latest
      (latestCfgFilePath self) (previousCfgFilePaths logLines).
Proof.
  intros Hpending Hcmp Hlog (lines & Hread & Hparse) Hne.
  unfold checkDup. rewrite Hpending, Hcmp. simpl. rewrite Hlog. simpl.
  unfold previousCfgFilePaths, cfgFilePathAll.
  destruct (length (List.filter isCfgFilePathLine logLines) =? 1)%nat eqn:Hlen.
  - apply Nat.eqb_eq in Hlen.
    destruct (List.filter isCfgFilePathLine logLines) as [|x [|y l]];
      try discriminate. reflexivity.
  - fold (latestCfgFilePath self). rewrite Hread. simpl. rewrite Hparse. simpl.
    pose proof (truthy_nonempty latest Hne) as Ht. simpl in Ht. rewrite Ht. reflexivity.
Qed.

(** C1, as the code has it: with no modify_atm side artifact waiting and
    a working artifact that parses into a non-empty map, [checkDup]
    returns Reuse [p, latestCfgFilePath] for the first earlier artifact
    p of the ledger whose map is identical to the latest one (same key
    set, pairwise-equal values after the ignore-list names are removed),
    the artifacts recorded before p parsing and differing; and it
    returns Fresh when every earlier artifact of the ledger parses and
    differs in at least one variable off the ignore-list. *)
Theorem checkDup_dedup fs self ignoreLines logLines latest :
  let ign := map Py.strip ignoreLines in
  let differs q := exists dq, parsesTo py_eval fs ign q dq /\ ~ sameVars py_ne dq latest in
  path_exists fs (modifyAtmFilePath self) = false ->
  readlines fs (cfgComparator self) = Ok ignoreLines ->
  readlines fs (VulcanRuntimeLogFilePath self) = Ok logLines ->
  parsesTo py_eval fs ign (latestCfgFilePath self) latest ->
  latest <> ∅ ->
  (forall before p after dp,
      previousCfgFilePaths logLines = (before ++ p :: after)%list ->
      Forall differs before ->
      parsesTo py_eval fs ign p dp ->
      sameVars py_ne dp latest ->
      checkDup py_eval py_ne fs self = Ok (Reuse p (latestCfgFilePath self)))
  /\ (Forall differs (previousCfgFilePaths logLines) ->
      checkDup py_eval py_ne fs self = Ok Fresh).
Proof.
  intros ign differs Hpending Hcmp Hlog Hlatest Hne.
  rewrite (checkDup_scan fs self ignoreLines logLines latest) by assumption.
  split.
  - intros before p after dp Hsplit Hbefore Hp Hsame.
    rewrite Hsplit, scanPrevious_differing by assumption.
    apply (scanPrevious_hit _ _ _ _ _ _ dp); assumption.
  - intros Hall.
    rewrite <- (app_nil_r (previousCfgFilePaths logLines)).
    rewrite scanPrevious_differing by assumption. reflexivity.
Qed.





(** An earlier artifact with a value that does not evaluate stops the
    scan with AttributeError. *)
Lemma scanPrevious_unparsable_previous fs ign latest latestPath p rest lines :
  latest <> ∅ ->
  readlines fs p = Ok lines ->
  checkDupLinesToDict py_eval lines ign = Ok PyFalse ->
  scanPrevious py_eval py_ne fs ign latest latestPath (p :: rest) = Raise AttributeError.
Proof.
  intros Hne Hread Hparse. simpl. rewrite Hread. simpl. rewrite Hparse. simpl.
  pose proof (truthy_nonempty latest Hne) as Ht. simpl in Ht. rewrite Ht. reflexivity.
Qed.

(** *** The ignore-list *)







(** *** The paths the check reads are distinct *)







Lemma readlines_insert_ne (fs : store) p q lines :
  p <> q -> readlines (<[p := lines]> fs) q = readlines fs q.
Proof.
  intros Hne. unfold readlines, lookup_file.
  destruct (String.eqb q EmptyString); [reflexivity|].
  rewrite lookup_insert_ne by exact Hne. reflexivity.
Qed.

Lemma readlines_insert_eq (fs : store) p lines :
  p <> EmptyString -> readlines (<[p := lines]> fs) p = Ok lines.
Proof.
  intros Hne. unfold readlines, lookup_file.
  apply String.eqb_neq in Hne. rewrite Hne, lookup_insert_eq. reflexivity.
Qed.

Lemma path_exists_overwrite (fs : store) p old new q :
  readlines fs p = Ok old ->
  path_exists (<[p := new]> fs) q = path_exists fs q.
Proof.
  intros Hold. unfold path_exists, readlines, lookup_file in *.
  destruct (String.eqb q EmptyString) eqn:Hq; [reflexivity|].
  destruct (decide (p = q)) as [<-|Hne].
  - rewrite Hq in Hold. rewrite lookup_insert_eq.
    destruct (fs !! p); [reflexivity | discriminate].
  - rewrite lookup_insert_ne by exact Hne. reflexivity.
Qed.

(** *** The check depends on the files only through what they parse to *)

Lemma scanPrevious_ext fs fs' ign latest latestPath paths :
  (forall p, parseAt py_eval fs ign p = parseAt py_eval fs' ign p) ->
  scanPrevious py_eval py_ne fs ign latest latestPath paths
  = scanPrevious py_eval py_ne fs' ign latest latestPath paths.
Proof.
  intros Hparse. induction paths as [|p rest IH]; [reflexivity|].
  specialize (Hparse p). unfold parseAt in Hparse. cbn [scanPrevious]. revert Hparse.
  destruct (readlines fs p) as [l|e], (readlines fs' p) as [l'|e']; simpl; intros Hparse.
  - rewrite Hparse. destruct (checkDupLinesToDict py_eval l' ign) as [r|]; [|reflexivity].
    simpl. rewrite IH. reflexivity.
  - rewrite Hparse. reflexivity.
  - rewrite <- Hparse. reflexivity.
  - congruence.
Qed.

Lemma checkDup_ext fs fs' self ignoreLines :
  path_exists fs (modifyAtmFilePath self) = path_exists fs' (modifyAtmFilePath self) ->
  readlines fs (cfgComparator self) = Ok ignoreLines ->
  readlines fs' (cfgComparator self) = Ok ignoreLines ->
  readlines fs (VulcanRuntimeLogFilePath self) = readlines fs' (VulcanRuntimeLogFilePath self) ->
  (forall p, parseAt py_eval fs (map Py.strip ignoreLines) p
             = parseAt py_eval fs' (map Py.strip ignoreLines) p) ->
  checkDup py_eval py_ne fs self = checkDup py_eval py_ne fs' self.
Proof.
  intros Hex Hcmp Hcmp' Hlog Hparse. unfold checkDup.
  rewrite Hex, Hcmp, Hcmp', Hlog.
  destruct (path_exists fs' (modifyAtmFilePath self)); [reflexivity|]. simpl.
  destruct (readlines fs' (VulcanRuntimeLogFilePath self)) as [logLines|]; [|reflexivity].
  simpl. destruct (_ =? 1)%nat; [reflexivity|].
  pose proof (Hparse (Py.path_join (vulcanFrameworkDir self) "vulcan_cfg.py")) as Hl.
  unfold parseAt in Hl. revert Hl.
  set (latestPath := Py.path_join (vulcanFrameworkDir self) "vulcan_cfg.py").
  destruct (readlines fs latestPath) as [l|e], (readlines fs' latestPath) as [l'|e'];
    simpl; intros Hl.
  - rewrite Hl. destruct (checkDupLinesToDict py_eval l' _) as [[|latest]|]; try reflexivity.
    simpl. destruct (negb _); [reflexivity|]. apply scanPrevious_ext, Hparse.
  - rewrite Hl. reflexivity.
  - rewrite <- Hl. reflexivity.
  - congruence.
Qed.


(** *** Ignore-list independence *)




End DedupProperties.

(** ** Dedup engine on the example runs *)

Lemma lookup_nonempty (dict : gmap string PyVal) k v : dict !! k = Some v -> dict <> ∅.
Proof. intros H ->. rewrite lookup_empty in H. discriminate. Qed.

Example checkDupLinesToDict_example :
  checkDupLinesToDict literal_eval_in (cfg_lines "20" "'1-200'") (map Py.strip comparator_lines)
  = Ok (PyDict example_vars).
Proof. vm_compute. reflexivity. Qed.

Lemma checkDup_dedup_witness :
  checkDup literal_eval_in literal_ne files_two_generations self_2_201
  = Ok (Reuse (cfg_path "2-200") latest_path)
  /\ checkDup literal_eval_in literal_ne
       (files_second_column "1" (cfg_lines "21" "'1-200'") (cfg_lines "20" "'1-201'")) self_1_201
     = Ok Fresh.
Proof.
  split.
  - refine (proj1 (checkDup_dedup literal_eval_in literal_ne
                     files_two_generations self_2_201 comparator_lines
                     ledger_two_generations example_vars _ _ _ _ _)
                  [cfg_path "1-200"] (cfg_path "2-200") [] example_vars _ _ _ _).
    + reflexivity.
    + reflexivity.
    + reflexivity.
    + eexists. split; [reflexivity | vm_compute; reflexivity].
    + apply (lookup_nonempty _ "nz" (PInt 20)). reflexivity.
    + reflexivity.
    + constructor; [|constructor].
      exists example_vars_19. split.
      * eexists. split; [reflexivity | vm_compute; reflexivity].
      * intros H. apply statusFlag_spec in H. vm_compute in H. discriminate.
    + eexists. split; [reflexivity | vm_compute; reflexivity].
    + apply statusFlag_spec. vm_compute. reflexivity.
  - refine (proj2 (checkDup_dedup literal_eval_in literal_ne
                     (files_second_column "1" (cfg_lines "21" "'1-200'") (cfg_lines "20" "'1-201'"))
                     self_1_201 comparator_lines (ledger_second_column "1") example_vars
                     _ _ _ _ _) _).
    + reflexivity.
    + reflexivity.
    + reflexivity.
    + eexists. split; [reflexivity | vm_compute; reflexivity].
    + apply (lookup_nonempty _ "nz" (PInt 20)). reflexivity.
    + constructor; [|constructor].
      exists example_vars_21. split.
      * eexists. split; [reflexivity | vm_compute; reflexivity].
      * intros H. apply statusFlag_spec in H. vm_compute in H. discriminate.
Defined.

(** C1 as stated fails when a modify_atm side artifact is waiting: the
    working artifact of column '201' and the artifact recorded for
    column '200' of the same generation both parse, to the same map
    once the ignore-list names are removed, and [checkDup] returns
    Fresh; the same files without the side artifact give Reuse. *)
Lemma checkDup_pending_side_artifact_is_fresh :
  let ign := map Py.strip comparator_lines in
  let fs := files_two_generations in
  let fs_pending := <[modify_atm_path "2-201" := ["{}"]]> fs in
  previousCfgFilePaths ledger_two_generations = [cfg_path "1-200"; cfg_path "2-200"]
  /\ parseAt literal_eval_in fs_pending ign (cfg_path "2-200") = Ok (PyDict example_vars)
  /\ parseAt literal_eval_in fs_pending ign latest_path = Ok (PyDict example_vars)
  /\ statusFlag literal_ne example_vars example_vars = true
  /\ checkDup literal_eval_in literal_ne fs_pending self_2_201_pending = Ok Fresh
  /\ checkDup literal_eval_in literal_ne fs self_2_201
     = Ok (Reuse (cfg_path "2-200") latest_path).
Proof. vm_compute. repeat split; reflexivity. Qed.

(** C2 at a ledger whose earlier artifact has the line 'nz = 20 levels':
    the earlier artifact parses to False, the working artifact parses,
    and [checkDup] raises AttributeError where the rule says Fresh. *)
Theorem checkDup_unparsable_previous_raises :
  let previous := cfg_lines "20 levels" "'1-200'" in
  let latest := cfg_lines "20" "'1-201'" in
  let ign := map Py.strip comparator_lines in
  let fs := files_second_column "1" previous latest in
  parseAt literal_eval_in fs ign (cfg_path "1-200") = Ok PyFalse
  /\ parseAt literal_eval_in fs ign latest_path = Ok (PyDict example_vars)
  /\ checkDup literal_eval_in literal_ne fs self_1_201 = Raise AttributeError.
Proof. vm_compute. repeat split; reflexivity. Qed.

(** The candidate side of the rule on the same ledger. *)
Example checkDup_unparsable_candidate_example :
  checkDup literal_eval_in literal_ne
    (files_second_column "1" (cfg_lines "20" "'1-200'") (cfg_lines "20 levels" "'1-201'"))
    self_1_201 = Ok Fresh.
Proof. vm_compute. reflexivity. Qed.





(** * Further properties *)

(** ** Strings *)

Lemma startswith_char c s :
  Py.startswith (String c EmptyString) s
  = match s with
    | EmptyString => false
    | String a _ => Ascii.eqb c a
    end.
Proof. destruct s as [|a s]; simpl; [reflexivity|]. apply andb_true_r. Qed.

(** Splitting at one character, one step. *)
Lemma split_char_cons c a s :
  Py.split (String c EmptyString) (String a s)
  = if Ascii.eqb c a then EmptyString :: Py.split (String c EmptyString) s
    else match Py.split (String c EmptyString) s with
         | p :: ps => String a p :: ps
         | [] => [String a EmptyString]
         end.
Proof.
  unfold Py.split. cbn [Py.split_go]. rewrite startswith_char.
  destruct (Ascii.eqb c a); reflexivity.
Qed.

Lemma split0_char_cons c a s :
  Py.split0 (String c EmptyString) (String a s)
  = if Ascii.eqb c a then EmptyString
    else String a (Py.split0 (String c EmptyString) s).
Proof.
  unfold Py.split0. rewrite split_char_cons.
  destruct (Ascii.eqb c a); [reflexivity|].
  destruct (Py.split (String c EmptyString) s) eqn:E; [|reflexivity].
  exfalso. exact (split_nonempty _ _ E).
Qed.

Lemma contains_char_cons c a s :
  Py.contains (String c EmptyString) (String a s)
  = Ascii.eqb c a || Py.contains (String c EmptyString) s.
Proof. cbn [Py.contains]. rewrite startswith_char. reflexivity. Qed.

Lemma contains_char_nil c : Py.contains (String c EmptyString) EmptyString = false.
Proof. reflexivity. Qed.

(** The first piece of a split holds no separator. *)
Lemma split0_no_char c s :
  Py.contains (String c EmptyString) (Py.split0 (String c EmptyString) s) = false.
Proof.
  induction s as [|a s IH]; [reflexivity|].
  rewrite split0_char_cons. destruct (Ascii.eqb c a) eqn:E; [reflexivity|].
  rewrite contains_char_cons, E, IH. reflexivity.
Qed.

(** The first piece of [a + c + b] is [a] when [a] holds no [c]. *)
Lemma split0_char_app c a b :
  Py.contains (String c EmptyString) a = false ->
  Py.split0 (String c EmptyString) (a +:+ String c b) = a.
Proof.
  induction a as [|x a IH]; intros Ha.
  - change (EmptyString +:+ String c b) with (String c b).
    rewrite split0_char_cons, Ascii.eqb_refl. reflexivity.
  - rewrite contains_char_cons in Ha. apply orb_false_iff in Ha as [Hx Ha].
    change (String x a +:+ String c b) with (String x (a +:+ String c b)).
    rewrite split0_char_cons, Hx, IH by exact Ha. reflexivity.
Qed.

Lemma contains_char_app c a b :
  Py.contains (String c EmptyString) (a +:+ b)
  = Py.contains (String c EmptyString) a || Py.contains (String c EmptyString) b.
Proof.
  induction a as [|x a IH]; [reflexivity|].
  change (String x a +:+ b) with (String x (a +:+ b)).
  rewrite !contains_char_cons, IH. apply orb_assoc.
Qed.

Lemma append_inj_l (a b c : string) : a +:+ b = a +:+ c -> b = c.
Proof. induction a as [|x a IH]; simpl; intros H; [exact H | injection H as H; auto]. Qed.

Lemma append_assoc (a b c : string) : (a +:+ b) +:+ c = a +:+ (b +:+ c).
Proof.
  induction a as [|x a IH]; [reflexivity|].
  change (String x ((a +:+ b) +:+ c) = String x (a +:+ (b +:+ c))). f_equal. exact IH.
Qed.

(** ** Dedup engine: what the parse keeps and what the check returns *)

Section DedupFurther.

Variable py_eval : frame -> string -> res PyVal.
Variable py_ne : PyVal -> PyVal -> bool.









(** A Reuse from the scan names a scanned path whose artifact parses to
    a map identical to the latest one. *)
Lemma scanPrevious_Reuse_inv fs ign latest latestPath paths p l :
  scanPrevious py_eval py_ne fs ign latest latestPath paths = Ok (Reuse p l) ->
  l = latestPath /\ p ∈ paths /\ latest <> ∅
  /\ exists dp, parsesTo py_eval fs ign p dp /\ sameVars py_ne dp latest.
Proof.
  induction paths as [|q rest IH]; intros H; [discriminate|].
  cbn [scanPrevious] in H.
  destruct (readlines fs q) as [lines|] eqn:Hread; [|discriminate]. simpl in H.
  destruct (checkDupLinesToDict py_eval lines ign) as [prev|] eqn:Hparse; [|discriminate].
  simpl in H.
  destruct (bool_decide (latest = ∅)) eqn:Hempty; [discriminate|]. simpl in H.
  apply bool_decide_eq_false in Hempty.
  destruct prev as [|dq]; [discriminate|].
  destruct (statusFlag py_ne dq latest) eqn:Hflag.
  - injection H as <- <-. split; [reflexivity|]. split; [left|]. split; [exact Hempty|].
    exists dq. split; [exists lines; split; assumption | apply statusFlag_spec, Hflag].
  - destruct (IH H) as (Hl & Hin & Hne & Hdp). split; [exact Hl|]. split; [right; exact Hin|].
    split; assumption.
Qed.

(** X3: [checkDup] reuses only what it has found identical.  Whenever it
    returns [[p, l]], no side artifact is waiting, [l] is the working
    artifact's path, [p] is one of the earlier paths of the ledger, both
    artifacts parse, and their maps (ignore-list names removed) are
    identical and not empty. *)
Theorem checkDup_Reuse_sound fs self p l :
  checkDup py_eval py_ne fs self = Ok (Reuse p l) ->
  path_exists fs (modifyAtmFilePath self) = false
  /\ l = latestCfgFilePath self
  /\ exists ignoreLines logLines dp latest,
       readlines fs (cfgComparator self) = Ok ignoreLines
       /\ readlines fs (VulcanRuntimeLogFilePath self) = Ok logLines
       /\ p ∈ previousCfgFilePaths logLines
       /\ parsesTo py_eval fs (map Py.strip ignoreLines) p dp
       /\ parsesTo py_eval fs (map Py.strip ignoreLines) (latestCfgFilePath self) latest
       /\ latest <> ∅
       /\ sameVars py_ne dp latest.
Proof.
  unfold checkDup. intros H.
  destruct (path_exists fs (modifyAtmFilePath self)); [discriminate|].
  split; [reflexivity|].
  destruct (readlines fs (cfgComparator self)) as [ignoreLines|]; [|discriminate].
  simpl in H.
  destruct (readlines fs (VulcanRuntimeLogFilePath self)) as [logLines|]; [|discriminate].
  simpl in H.
  destruct (length _ =? 1)%nat; [discriminate|].
  fold (latestCfgFilePath self) in H.
  destruct (readlines fs (latestCfgFilePath self)) as [lines|] eqn:Hread; [|discriminate].
  simpl in H.
  destruct (checkDupLinesToDict py_eval lines _) as [[|latest]|] eqn:Hparse;
    try discriminate.
  simpl in H. destruct (negb (negb _)); [discriminate|].
  apply scanPrevious_Reuse_inv in H as (Hl & Hin & Hne & dp & Hp & Hsame).
  split; [exact Hl|].
  exists ignoreLines, logLines, dp, latest.
  repeat (split; [first [reflexivity | assumption | exists lines; split; assumption]|]).
  exact Hsame.
Qed.






(** X7: a ledger entry whose artifact is gone.  With no side artifact
    waiting and a working artifact that parses into a non-empty map,
    [checkDup] raises FileNotFoundError when the scan reaches an earlier
    path that names no file, the artifacts before it parsing and
    differing. *)
Theorem checkDup_missing_previous fs self ignoreLines logLines latest before p after :
  path_exists fs (modifyAtmFilePath self) = false ->
  readlines fs (cfgComparator self) = Ok ignoreLines ->
  readlines fs (VulcanRuntimeLogFilePath self) = Ok logLines ->
  parsesTo py_eval fs (map Py.strip ignoreLines) (latestCfgFilePath self) latest ->
  latest <> ∅ ->
  previousCfgFilePaths logLines = (before ++ p :: after)%list ->
  Forall (fun q => exists dq, parsesTo py_eval fs (map Py.strip ignoreLines) q dq
                              /\ ~ sameVars py_ne dq latest) before ->
  path_exists fs p = false ->
  checkDup py_eval py_ne fs self = Raise FileNotFoundError.
Proof.
  intros Hpending Hcmp Hlog Hlatest Hne Hsplit Hbefore Hp.
  rewrite (checkDup_scan py_eval py_ne fs self ignoreLines logLines latest) by assumption.
  rewrite Hsplit, scanPrevious_differing by assumption.
  cbn [scanPrevious]. unfold readlines. unfold path_exists in Hp.
  destruct (lookup_file fs p); [discriminate | reflexivity].
Qed.

End DedupFurther.

(** *** On the example runs *)



Lemma checkDup_Reuse_sound_witness :
  checkDup literal_eval_in literal_ne files_two_generations self_2_201
  = Ok (Reuse (cfg_path "2-200") latest_path)
  /\ exists dp latest,
       cfg_path "2-200" ∈ previousCfgFilePaths ledger_two_generations
       /\ parsesTo literal_eval_in files_two_generations (map Py.strip comparator_lines)
            (cfg_path "2-200") dp
       /\ parsesTo literal_eval_in files_two_generations (map Py.strip comparator_lines)
            latest_path latest
       /\ sameVars literal_ne dp latest.
Proof.
  assert (H : checkDup literal_eval_in literal_ne files_two_generations self_2_201
              = Ok (Reuse (cfg_path "2-200") latest_path)) by (vm_compute; reflexivity).
  split; [exact H|].
  destruct (checkDup_Reuse_sound literal_eval_in literal_ne _ _ _ _ H)
    as (_ & _ & ignoreLines & logLines & dp & latest & Hcmp & Hlog & Hin & Hp & Hl & _ & Hs).
  injection Hcmp as <-. injection Hlog as <-.
  exists dp, latest.
  split; [exact Hin|]. split; [exact Hp|]. split; [exact Hl | exact Hs].
Defined.




Lemma checkDup_missing_previous_witness :
  let fs := delete (cfg_path "2-200") files_two_generations in
  checkDup literal_eval_in literal_ne fs self_2_201 = Raise FileNotFoundError.
Proof.
  intros fs.
  apply (checkDup_missing_previous literal_eval_in literal_ne fs self_2_201
           comparator_lines ledger_two_generations example_vars
           [cfg_path "1-200"] (cfg_path "2-200") []).
  - reflexivity.
  - reflexivity.
  - reflexivity.
  - eexists. split; [reflexivity | vm_compute; reflexivity].
  - apply (lookup_nonempty _ "nz" (PInt 20)). reflexivity.
  - reflexivity.
  - constructor; [|constructor].
    exists example_vars_19. split.
    + eexists. split; [reflexivity | vm_compute; reflexivity].
    + intros H. apply statusFlag_spec in H. vm_compute in H. discriminate.
  - reflexivity.
Defined.

(** ** Column scheduler: run identifiers, grid and neighbours *)

(** X8: every run identifier of a pass is the text of the starting
    identifier before its first hyphen, a hyphen, and the column; so a
    pass over distinct columns gets distinct run identifiers, one per
    column. *)
Theorem runIDs_prefix currentRunID columnsList :
  runIDs currentRunID columnsList
  = map (fun column => Py.split0 "-" currentRunID +:+ "-" +:+ column) columnsList
  /\ length (runIDs currentRunID columnsList) = length columnsList
  /\ (NoDup columnsList -> NoDup (runIDs currentRunID columnsList)).
Proof.
  assert (H : runIDs currentRunID columnsList
              = map (fun column => Py.split0 "-" currentRunID +:+ "-" +:+ column)
                    columnsList).
  { apply runIDs_generation; [|reflexivity].
    intros column. apply (split0_char_app "-"), split0_no_char. }
  split; [exact H|]. rewrite H. split; [apply length_map|].
  intros Hnd.
  assert (Hinj : Inj eq eq (fun column => Py.split0 "-" currentRunID +:+ "-" +:+ column)).
  { intros a b Hab. exact (append_inj_l "-" _ _ (append_inj_l _ _ _ Hab)). }
  exact (@NoDup_fmap_2 _ _ _ Hinj _ Hnd).
Qed.

Lemma range_length n : length (range n) = Z.to_nat n.
Proof. unfold range. rewrite length_map. apply length_seq. Qed.

Lemma elem_of_range n z : z ∈ range n <-> 0 <= z < n.
Proof.
  unfold range. rewrite list_elem_of_In, in_map_iff. split.
  - intros (i & <- & Hi). apply in_seq in Hi. lia.
  - intros Hz. exists (Z.to_nat z). split; [lia|]. apply in_seq. lia.
Qed.

Lemma flat_map_constant_length {A B} (f : A -> list B) (l : list A) (k : nat) :
  (forall a, length (f a) = k) -> length (flat_map f l) = (length l * k)%nat.
Proof.
  intros Hf. induction l as [|a l IH]; [reflexivity|].
  cbn [flat_map]. rewrite length_app, Hf, IH. simpl. reflexivity.
Qed.

Lemma rectangularGrid_length nx ny :
  length (rectangularGrid nx ny) = (Z.to_nat nx * Z.to_nat ny)%nat.
Proof.
  unfold rectangularGrid.
  rewrite (flat_map_constant_length _ _ (Z.to_nat ny)), range_length; [reflexivity|].
  intros x. rewrite length_map. apply range_length.
Qed.

Lemma elem_of_rectangularGrid nx ny x y :
  0 <= x < nx -> 0 <= y < ny -> columnID 2 x y ∈ rectangularGrid nx ny.
Proof.
  intros Hx Hy. unfold rectangularGrid. apply list_elem_of_In, in_flat_map.
  exists x. split; [apply list_elem_of_In, elem_of_range, Hx|].
  apply in_map, list_elem_of_In, elem_of_range, Hy.
Qed.

(** The ID '2111' is printed for two cells of a world of side twelve or more. *)
Lemma rectangularGrid_repeats n : 12 <= n -> ~ NoDup (rectangularGrid n n).
Proof.
  intros Hn Hnd. unfold rectangularGrid in Hnd.
  assert (Hsplit : range n = (range 11 ++ map Z.of_nat (seq 11 (Z.to_nat n - 11)))%list).
  { unfold range. rewrite <- map_app, <- seq_app. f_equal. f_equal. lia. }
  rewrite Hsplit, flat_map_app in Hnd.
  apply NoDup_app in Hnd as (_ & Hdisj & _).
  apply (Hdisj (columnID 2 1 11)).
  - apply list_elem_of_In, in_flat_map. exists 1. split.
    + apply list_elem_of_In, elem_of_range. lia.
    + apply in_map, list_elem_of_In. rewrite <- Hsplit. apply elem_of_range. lia.
  - change (columnID 2 1 11) with (columnID 2 11 1).
    apply list_elem_of_In, in_flat_map. exists 11. split.
    + apply in_map_iff. exists 11%nat. split; [reflexivity|]. apply in_seq. lia.
    + apply in_map, list_elem_of_In. rewrite <- Hsplit. apply elem_of_range. lia.
Qed.

(** X9: [generateColumns] raises IndexError without a world dimension;
    with first dimension n it returns n * n IDs (none for n <= 0), and
    these IDs are pairwise distinct exactly when n is at most 11: from
    twelve on two cells print the same ID. *)
Theorem generateColumns_count_and_uniqueness :
  generateColumns [] = Raise IndexError
  /\ forall n rest, exists columns,
       generateColumns (n :: rest) = Ok columns
       /\ length columns = (Z.to_nat n * Z.to_nat n)%nat
       /\ (NoDup columns <-> n <= 11).
Proof.
  split; [reflexivity|]. intros n rest. exists (rectangularGrid n n).
  split; [reflexivity|]. split; [apply rectangularGrid_length|]. split.
  - intros Hnd. destruct (Z_le_gt_dec n 11) as [Hle|Hgt]; [exact Hle|].
    exfalso. apply (rectangularGrid_repeats n); [lia | exact Hnd].
  - intros Hle. destruct (Z_le_gt_dec n 0) as [Hneg|Hpos].
    + replace (rectangularGrid n n) with (@nil string); [constructor|].
      unfold rectangularGrid, range. replace (Z.to_nat n) with 0%nat by lia. reflexivity.
    + apply (Z_interval_cases (fun m => NoDup (rectangularGrid m m)) 1 11); [|lia].
      repeat (constructor; [apply (bool_decide_eq_true_1 _); vm_compute; reflexivity|]).
      constructor.
Qed.

(** What [int_at] answers, by the shape of the string. *)
Lemma int_at_Ok column i z :
  int_at column i = Ok z <->
  exists c, String.get i column = Some c /\ is_digit c = true /\ z = digit_value c.
Proof.
  unfold int_at, Py.char_at, Py.int_of_char, is_digit, digit_value.
  destruct (String.get i column) as [c|]; simpl.
  - split.
    + intros H. exists c. split; [reflexivity|].
      destruct (_ && _); [|discriminate]. injection H as <-. split; reflexivity.
    + intros (c' & Hc & Hd & ->). injection Hc as <-. rewrite Hd. reflexivity.
  - split; [discriminate|]. intros (c' & Hc & _). discriminate.
Qed.

(** X10: [nearestColumns] returns a list exactly for the strings that
    begin with three decimal digits; the characters after the third are
    never read. *)
Theorem nearestColumns_domain column :
  (exists near, nearestColumns column = Ok near)
  <-> exists d0 d1 d2 rest,
        column = String d0 (String d1 (String d2 rest))
        /\ is_digit d0 = true /\ is_digit d1 = true /\ is_digit d2 = true
        /\ nearestColumns column
           = nearestColumns (String d0 (String d1 (String d2 EmptyString))).
Proof.
  split.
  - intros [near H]. unfold nearestColumns in H.
    destruct (int_at column 0) as [c0|] eqn:H0; [|discriminate]. simpl in H.
    destruct (int_at column 1) as [c1|] eqn:H1; [|discriminate]. simpl in H.
    destruct (int_at column 2) as [c2|] eqn:H2; [|discriminate].
    apply int_at_Ok in H0 as (d0 & G0 & D0 & _).
    apply int_at_Ok in H1 as (d1 & G1 & D1 & _).
    apply int_at_Ok in H2 as (d2 & G2 & D2 & _).
    destruct column as [|a [|b [|c rest]]]; try discriminate.
    cbn in G0, G1, G2. injection G0 as ->. injection G1 as ->. injection G2 as ->.
    exists d0, d1, d2, rest. repeat (split; [first [reflexivity | assumption]|]).
    reflexivity.
  - intros (d0 & d1 & d2 & rest & -> & D0 & D1 & D2 & _).
    unfold nearestColumns.
    assert (H0 : int_at (String d0 (String d1 (String d2 rest))) 0 = Ok (digit_value d0))
      by (apply int_at_Ok; exists d0; auto).
    assert (H1 : int_at (String d0 (String d1 (String d2 rest))) 1 = Ok (digit_value d1))
      by (apply int_at_Ok; exists d1; auto).
    assert (H2 : int_at (String d0 (String d1 (String d2 rest))) 2 = Ok (digit_value d2))
      by (apply int_at_Ok; exists d2; auto).
    rewrite H0. simpl. rewrite H1. simpl. rewrite H2. simpl. eexists. reflexivity.
Qed.

Lemma nearest_symmetric_digits :
  forallb (fun a => forallb (fun b => forallb (fun c =>
      nearest_symmetric (column_of a b c) (Z.of_nat b) (Z.of_nat c))
    (seq 0 10)) (seq 0 10)) (seq 0 10) = true.
Proof. vm_compute. reflexivity. Qed.

(** X11: for a column ID of three digits with axis coordinates (x, y),
    [nearestColumns] lists two neighbours, plus one when x is positive,
    plus one when y is positive (the grid's upper edge is not clipped);
    and adjacency is symmetric: each listed neighbour of three
    characters lists the column among its own neighbours. *)
Theorem nearestColumns_count_and_symmetry (d0 d1 d2 : ascii) :
  is_digit d0 = true -> is_digit d1 = true -> is_digit d2 = true ->
  let column := String d0 (String d1 (String d2 EmptyString)) in
  exists near,
    nearestColumns column = Ok near
    /\ length near = neighbourCount (digit_value d1) (digit_value d2)
    /\ forall n, n ∈ near -> String.length n = 3%nat ->
         exists back, nearestColumns n = Ok back /\ column ∈ back.
Proof.
  intros H0 H1 H2 column.
  destruct (is_digit_inv _ H0) as (a & Ha & Ea & Va).
  destruct (is_digit_inv _ H1) as (b & Hb & Eb & Vb).
  destruct (is_digit_inv _ H2) as (c & Hc & Ec & Vc).
  assert (Hin : forall n, (n < 10)%nat -> In n (seq 0 10)) by (intros n Hn; apply in_seq; lia).
  pose proof (proj1 (forallb_forall _ _) nearest_symmetric_digits a (Hin a Ha)) as K1.
  pose proof (proj1 (forallb_forall _ _) K1 b (Hin b Hb)) as K2.
  pose proof (proj1 (forallb_forall _ _) K2 c (Hin c Hc)) as Hok. cbv beta in Hok.
  assert (Hcol : column = column_of a b c) by (unfold column, column_of; congruence).
  rewrite <- Hcol, <- Vb, <- Vc in Hok. unfold nearest_symmetric in Hok.
  destruct (nearestColumns column) as [near|] eqn:Hnear; [|discriminate].
  apply andb_prop in Hok as [Hlen Hsym]. apply Nat.eqb_eq in Hlen.
  exists near. split; [reflexivity|]. split; [exact Hlen|].
  intros n Hn Hn3. rewrite forallb_forall in Hsym.
  specialize (Hsym n (proj1 (list_elem_of_In _ _) Hn)).
  apply Nat.eqb_eq in Hn3. rewrite Hn3 in Hsym.
  destruct (nearestColumns n) as [back|]; [|discriminate].
  exists back. split; [reflexivity|]. apply bool_decide_eq_true in Hsym. exact Hsym.
Qed.

Lemma nearestColumns_count_and_symmetry_witness :
  exists near,
    nearestColumns "211" = Ok near
    /\ length near = neighbourCount 1 1
    /\ forall n, n ∈ near -> String.length n = 3%nat ->
         exists back, nearestColumns n = Ok back /\ "211" ∈ back.
Proof. exact (nearestColumns_count_and_symmetry "2" "1" "1" eq_refl eq_refl eq_refl). Defined.

(** ** Export for MISTRA *)


Lemma max_by_None {A} (key : A -> nat) (l : list A) : max_by key l = None -> l = [].
Proof.
  destruct l as [|x l]; [reflexivity|]. cbn [max_by].
  destruct (max_by key l); [destruct (_ <=? _)%nat|]; discriminate.
Qed.

Lemma res_mapM_length {A B} (f : A -> res B) (l : list A) (bs : list B) :
  res_mapM f l = Ok bs -> length bs = length l.
Proof. intros H. symmetry. exact (Forall2_length _ _ _ (res_mapM_Forall2 f l bs H)). Qed.

Section ExportProperties.

Variable average : list float -> float.

(** X12: when none of the neighbours [nearestColumns] lists for a column
    is a column of the latest run (a run of a single column, say), the
    averaging round for that column raises ValueError: the neighbour
    with the most species is looked for in an empty sequence. *)
Theorem exportMistraColumn_no_neighbour rawOutputAll latestRunColumns column near :
  nearestColumns column = Ok near ->
  Forall (fun n => n ∉ latestRunColumns) near ->
  exportMistraColumn average rawOutputAll latestRunColumns column = Raise ValueError.
Proof.
  intros Hnear Hnone. unfold exportMistraColumn, nearestListColumns.
  rewrite Hnear. simpl.
  replace (list_to_set near ∩ list_to_set latestRunColumns) with (∅ : gset string).
  - rewrite elements_empty. reflexivity.
  - symmetry. apply set_eq. intros n.
    rewrite elem_of_intersection, !elem_of_list_to_set. split; [|intros Hn; inversion Hn].
    intros [Hn Hl]. rewrite Forall_forall in Hnone. exfalso. exact (Hnone n Hn Hl).
Qed.


End ExportProperties.

Lemma exportMistraColumn_no_neighbour_witness :
  exportMistraColumn mean {[ "200" := column_output 50 1 ]} ["200"] "200"
  = Raise ValueError.
Proof.
  apply (exportMistraColumn_no_neighbour mean _ ["200"] "200" ["210"; "201"]).
  - reflexivity.
  - repeat constructor; intros H; apply list_elem_of_singleton in H; discriminate.
Defined.


(** ** Strings: strip *)

Lemma rstrip_cons c s :
  Py.rstrip (String c s)
  = match Py.rstrip s with
    | EmptyString => if Py.isspace c then EmptyString else String c EmptyString
    | String y r => String c (String y r)
    end.
Proof. reflexivity. Qed.

Lemma rstrip_app_space a : Py.rstrip (a +:+ " ") = Py.rstrip a.
Proof.
  induction a as [|x a IH]; [reflexivity|].
  change (String x a +:+ " ") with (String x (a +:+ " ")).
  rewrite !rstrip_cons, IH. reflexivity.
Qed.

Lemma rstrip_idempotent s : Py.rstrip (Py.rstrip s) = Py.rstrip s.
Proof.
  induction s as [|c s IH]; [reflexivity|].
  rewrite (rstrip_cons c s). destruct (Py.rstrip s) as [|y r] eqn:E.
  - destruct (Py.isspace c) eqn:Hc; [reflexivity|]. rewrite rstrip_cons, Hc. reflexivity.
  - rewrite rstrip_cons, IH. reflexivity.
Qed.

Lemma lstrip_head s x t : Py.lstrip s = String x t -> Py.isspace x = false.
Proof.
  induction s as [|c s IH]; [discriminate|]. cbn [Py.lstrip].
  destruct (Py.isspace c) eqn:Hc; [exact IH|]. intros H. injection H as <- _. exact Hc.
Qed.

Lemma rstrip_head s x t : Py.rstrip s = String x t -> exists t', s = String x t'.
Proof.
  destruct s as [|c s]; [discriminate|]. rewrite rstrip_cons.
  destruct (Py.rstrip s); [destruct (Py.isspace c)|]; intros H; try discriminate;
    injection H as <- _; eauto.
Qed.

(** A stripped string followed by one space strips back to itself. *)
Lemma strip_strip_space y : Py.strip (Py.strip y +:+ " ") = Py.strip y.
Proof.
  unfold Py.strip at 1.
  assert (Hl : Py.lstrip (Py.strip y +:+ " ") = Py.strip y +:+ " "
               \/ (Py.strip y = EmptyString)).
  { unfold Py.strip. destruct (Py.rstrip (Py.lstrip y)) as [|x t] eqn:E; [right; reflexivity|].
    left. destruct (rstrip_head _ _ _ E) as [t' Ht'].
    apply lstrip_head in Ht'.
    change (String x t +:+ " ") with (String x (t +:+ " ")). cbn [Py.lstrip].
    rewrite Ht'. reflexivity. }
  destruct Hl as [-> | Hempty].
  - rewrite rstrip_app_space. unfold Py.strip. apply rstrip_idempotent.
  - rewrite Hempty. reflexivity.
Qed.

Lemma contains_char_lstrip c s :
  Py.contains (String c EmptyString) s = false ->
  Py.contains (String c EmptyString) (Py.lstrip s) = false.
Proof.
  induction s as [|x s IH]; [reflexivity|]. intros H. cbn [Py.lstrip].
  destruct (Py.isspace x); [|exact H].
  rewrite contains_char_cons in H. apply orb_false_iff in H as [_ H]. exact (IH H).
Qed.

Lemma contains_char_rstrip c s :
  Py.contains (String c EmptyString) s = false ->
  Py.contains (String c EmptyString) (Py.rstrip s) = false.
Proof.
  induction s as [|x s IH]; [reflexivity|]. intros H.
  rewrite contains_char_cons in H. apply orb_false_iff in H as [Hx H].
  rewrite rstrip_cons. destruct (Py.rstrip s) as [|y r] eqn:E.
  - destruct (Py.isspace x); [reflexivity|]. rewrite contains_char_cons, Hx. reflexivity.
  - rewrite contains_char_cons, Hx. exact (IH H).
Qed.

(** The name of a line holds no equal sign. *)
Lemma lineKey_no_equal line : Py.contains "=" (lineKey line) = false.
Proof.
  unfold lineKey, Py.strip.
  apply contains_char_rstrip, contains_char_lstrip, (split0_no_char "=").
Qed.

(** The line an override writes assigns the name it replaced. *)
Lemma lineKey_written line newVar :
  lineKey (lineKey line +:+ " = " +:+ newVar +:+ nl) = lineKey line.
Proof.
  unfold lineKey at 1.
  replace (lineKey line +:+ " = " +:+ newVar +:+ nl)
    with ((lineKey line +:+ " ") +:+ String "=" (" " +:+ newVar +:+ nl))
    by (rewrite append_assoc; reflexivity).
  rewrite (split0_char_app "=").
  - apply strip_strip_space.
  - rewrite contains_char_app, lineKey_no_equal. reflexivity.
Qed.

(** ** Config assembler *)

Lemma lineKey_overrideLine varName newVar line :
  lineKey (overrideLine varName newVar line) = lineKey line.
Proof.
  unfold overrideLine. destruct (String.eqb_spec (lineKey line) varName) as [<-|]; [|reflexivity].
  apply lineKey_written.
Qed.

Lemma applyOverrides_cons k v combineDict cfgData :
  applyOverrides ((k, v) :: combineDict) cfgData
  = applyOverrides combineDict (map (overrideLine k v) cfgData).
Proof. reflexivity. Qed.

(** X14: the overrides of [cfgVulcan] (distinct names, as in a dict)
    rewrite lines in place: the artifact keeps its number of lines and
    the name each line assigns; a line whose name has an override
    becomes 'name = value' with that value, every other line is left as
    it is; so an override whose name no line assigns changes nothing. *)
Theorem applyOverrides_in_place combineDict cfgData :
  NoDup (map fst combineDict) ->
  length (applyOverrides combineDict cfgData) = length cfgData
  /\ map lineKey (applyOverrides combineDict cfgData) = map lineKey cfgData
  /\ (forall i line, cfgData !! i = Some line ->
        applyOverrides combineDict cfgData !! i
        = Some match (list_to_map combineDict : gmap string string) !! lineKey line with
               | Some newVar => lineKey line +:+ " = " +:+ newVar +:+ nl
               | None => line
               end)
  /\ (forall varName newVar, varName ∉ map lineKey cfgData ->
        applyOverrides ((varName, newVar) :: combineDict) cfgData
        = applyOverrides combineDict cfgData).
Proof.
  intros Hnd.
  assert (Hkeys : forall d data, map lineKey (applyOverrides d data) = map lineKey data).
  { induction d as [|[k v] d IH]; intros data; [reflexivity|].
    rewrite applyOverrides_cons, IH, map_map. apply map_ext. intros line.
    apply lineKey_overrideLine. }
  split; [rewrite <- (length_map lineKey), Hkeys; apply length_map|].
  split; [apply Hkeys|]. split.
  - revert cfgData. induction combineDict as [|[k v] d IH]; intros data i line Hi.
    + cbn. rewrite lookup_empty. exact Hi.
    + apply NoDup_cons in Hnd as [Hk Hd]. cbn [map fst] in Hk.
      rewrite applyOverrides_cons.
      rewrite (IH Hd _ i (overrideLine k v line))
        by (rewrite list_lookup_fmap, Hi; reflexivity).
      rewrite lineKey_overrideLine. cbn [list_to_map foldr]. unfold overrideLine.
      destruct (String.eqb_spec (lineKey line) k) as [->|Hne].
      * rewrite lookup_insert_eq.
        replace ((list_to_map d : gmap string string) !! k) with (@None string);
          [reflexivity|].
        symmetry. apply not_elem_of_list_to_map_1. exact Hk.
      * rewrite lookup_insert_ne by (intros E; apply Hne; symmetry; exact E). reflexivity.
  - intros varName newVar Hnot. rewrite applyOverrides_cons. f_equal.
    rewrite <- (map_id cfgData) at 2. apply map_ext_in. intros line Hin.
    unfold overrideLine. destruct (String.eqb_spec (lineKey line) varName) as [<-|]; [|reflexivity].
    exfalso. apply Hnot, list_elem_of_In, in_map, Hin.
Qed.

Lemma applyOverrides_in_place_witness :
  let combineDict := [("nz", "25"); ("atm_type", "'file'")] in
  let cfgData := cfg_lines "20" "'1-200'" in
  NoDup (map fst combineDict)
  /\ map lineKey (applyOverrides combineDict cfgData) = map lineKey cfgData
  /\ applyOverrides combineDict cfgData !! 3%nat = Some ("nz = 25" +:+ nl).
Proof.
  intros combineDict cfgData.
  assert (Hnd : NoDup (map fst combineDict)).
  { repeat constructor; [intros H; apply list_elem_of_singleton in H; discriminate
                        | intros H; inversion H]. }
  destruct (applyOverrides_in_place combineDict cfgData Hnd) as (_ & Hkeys & Hlines & _).
  split; [exact Hnd|]. split; [exact Hkeys|].
  exact (Hlines 3%nat ("nz = 20" +:+ nl) eq_refl).
Defined.

(** The local [newValue] after a key that names a height or a pressure. *)
Lemma translateUpdateDict_cons_named newValue key value rest :
  namesUnit key = true ->
  translateUpdateDict newValue ((key, value) :: rest)
  = translateUpdateDict (Some (value * 100)%float) rest
    ≫= fun r => Ok ((key, (value * 100)%float) :: r.1, r.2).
Proof.
  intros Hk. unfold namesUnit in Hk. cbn [translateUpdateDict].
  destruct (Py.contains "Height" key); [|simpl in Hk; rewrite Hk];
    simpl; destruct (translateUpdateDict _ rest) as [[r l]|]; reflexivity.
Qed.

Lemma translateUpdateDict_cons_other newValue key value rest :
  namesUnit key = false ->
  translateUpdateDict newValue ((key, value) :: rest)
  = match newValue with
    | None => Raise UnboundLocalError
    | Some v => translateUpdateDict newValue rest ≫= fun r => Ok ((key, v) :: r.1, r.2)
    end.
Proof.
  intros Hk. unfold namesUnit in Hk. apply orb_false_iff in Hk as [Hh Hp].
  cbn [translateUpdateDict]. rewrite Hh, Hp. destruct newValue as [v|]; [|reflexivity].
  destruct (translateUpdateDict _ rest) as [[r l]|]; reflexivity.
Qed.

Lemma translateUpdateDict_keys items :
  forall newValue items' last,
    translateUpdateDict newValue items = Ok (items', last) ->
    map fst items' = map fst items.
Proof.
  induction items as [|[key value] rest IH]; intros newValue items' last H.
  - injection H as <- _. reflexivity.
  - destruct (namesUnit key) eqn:Hk.
    + rewrite translateUpdateDict_cons_named in H by exact Hk.
      destruct (translateUpdateDict _ rest) as [[r l]|] eqn:E; [|discriminate].
      simpl in H. injection H as <- _. cbn [map fst]. f_equal. exact (IH _ _ _ E).
    + rewrite translateUpdateDict_cons_other in H by exact Hk.
      destruct newValue as [v|]; [|discriminate].
      destruct (translateUpdateDict _ rest) as [[r l]|] eqn:E; [|discriminate].
      simpl in H. injection H as <- _. cbn [map fst]. f_equal. exact (IH _ _ _ E).
Qed.

Lemma translateUpdateDict_all_named items :
  Forall (fun kv : string * float => namesUnit kv.1 = true) items ->
  forall newValue, exists last,
    translateUpdateDict newValue items
    = Ok (map (fun kv => (kv.1, (kv.2 * 100)%float)) items, last).
Proof.
  induction 1 as [|[key value] rest Hk _ IH]; intros newValue.
  - exists newValue. reflexivity.
  - rewrite translateUpdateDict_cons_named by exact Hk.
    destruct (IH (Some (value * 100)%float)) as [last ->]. exists last. reflexivity.
Qed.

(** X15: the loop of [cfgVulcan] over an inbound mapping keeps the keys
    and their order; when every key names a height or a pressure every
    value is multiplied by 100; a key that names neither raises
    UnboundLocalError when it comes first, and after a key that names
    one it receives that key's translated value instead of its own. *)
Theorem translateUpdateDict_behaviour :
  (forall newValue items items' last,
      translateUpdateDict newValue items = Ok (items', last) ->
      map fst items' = map fst items)
  /\ (forall items,
        Forall (fun kv : string * float => namesUnit kv.1 = true) items ->
        exists last,
          translateUpdateDict None items
          = Ok (map (fun kv => (kv.1, (kv.2 * 100)%float)) items, last))
  /\ (forall key value rest,
        namesUnit key = false ->
        translateUpdateDict None ((key, value) :: rest) = Raise UnboundLocalError)
  /\ (forall newValue key value key' value',
        namesUnit key = true -> namesUnit key' = false ->
        translateUpdateDict newValue [(key, value); (key', value')]
        = Ok ([(key, (value * 100)%float); (key', (value * 100)%float)],
              Some (value * 100)%float)).
Proof.
  split; [exact (fun nv items items' last => translateUpdateDict_keys items nv items' last)|].
  split; [intros items H; exact (translateUpdateDict_all_named items H None)|].
  split.
  - intros key value rest Hk. rewrite translateUpdateDict_cons_other by exact Hk. reflexivity.
  - intros newValue key value key' value' Hk Hk'.
    rewrite translateUpdateDict_cons_named by exact Hk.
    rewrite translateUpdateDict_cons_other by exact Hk'. reflexivity.
Qed.

(** ** Config assembler: the previous run *)

Lemma substring_skip a b m :
  String.substring (String.length a) m (a +:+ b) = String.substring 0 m b.
Proof. induction a as [|x a IH]; [reflexivity | exact IH]. Qed.

Lemma substring_all b : String.substring 0 (String.length b) b = b.
Proof. induction b as [|x b IH]; [reflexivity|]. simpl. f_equal. exact IH. Qed.

Lemma length_append a b : String.length (a +:+ b) = (String.length a + String.length b)%nat.
Proof. induction a as [|x a IH]; [reflexivity|]. simpl. f_equal. exact IH. Qed.

Lemma last3_app a column :
  String.length column = 3%nat -> last3 (a +:+ column) = column.
Proof.
  intros H3. unfold last3. rewrite length_append, H3.
  replace (String.length a + 3 - 3)%nat with (String.length a) by lia.
  rewrite substring_skip, <- H3. apply substring_all.
Qed.

Lemma previousRunID_one_digit g column :
  1 <= g <= 9 -> String.length column = 3%nat ->
  previousRunID (Py.str g +:+ "-" +:+ column) = Ok (Py.str (g - 1) +:+ "-" +:+ column).
Proof.
  intros Hg H3. unfold previousRunID.
  rewrite <- append_assoc, last3_app by exact H3. rewrite append_assoc.
  revert column H3.
  apply (Z_interval_cases
           (fun g => forall column, String.length column = 3%nat ->
              int_at (Py.str g +:+ "-" +:+ column) 0
              ≫= (fun g0 => Ok (Py.str (g0 - 1) +:+ "-" +:+ column))
              = Ok (Py.str (g - 1) +:+ "-" +:+ column))
           1 9); [|lia].
  repeat (constructor; [intros column _; reflexivity|]). constructor.
Qed.

(** X16: on a USE_LATEST_VUL run whose ledger ends with the events of a
    generation g from 0 to 8, the initial-condition file [cfgVulcan]
    names for every three-character column of the pass is the output
    of that column in generation g, the last one recorded. *)
Theorem previousRunID_is_last_generation
  (fs : store) (self : controller) (lines : list string) (g : Z) (tail : string)
  (columnsList : list string) :
  vulcanRunType self <> INITIAL_RUN ->
  vulcanRunType self <> NO_RUN ->
  readlines fs (VulcanRuntimeLogFilePath self) = Ok lines ->
  last (List.filter isRunLine lines) = Some ("Run " +:+ Py.str g +:+ "-" +:+ tail) ->
  0 <= g <= 8 ->
  Forall (fun column => String.length column = 3%nat) columnsList ->
  exists currentRunID,
    vulcanOutput fs self = Ok currentRunID
    /\ Forall2 (fun column runID =>
                  previousRunID runID = Ok (Py.str g +:+ "-" +:+ column))
               columnsList (runIDs currentRunID columnsList).
Proof.
  intros Hini Hno Hlog Hlast Hg H3.
  exists (Py.str (g + 1) +:+ "-"). split.
  - unfold vulcanOutput.
    apply String.eqb_neq in Hini, Hno. rewrite Hini, Hno. simpl negb. cbv iota.
    rewrite Hlog. simpl. unfold Py.index_last. rewrite Hlast. simpl.
    pose proof (run_line_generation g tail ltac:(lia)) as Hrun.
    destruct (Py.char_at _ 4) as [c|e]; simpl in Hrun |- *; [|discriminate].
    rewrite Hrun. reflexivity.
  - rewrite (runIDs_generation (Py.str (g + 1))).
    + apply Forall2_fmap_r, Forall_Forall2_diag.
      eapply Forall_impl; [exact H3|]. intros column Hc. unfold compose. cbv beta in Hc |- *.
      rewrite previousRunID_one_digit by (lia || exact Hc).
      replace (g + 1 - 1) with g by lia. reflexivity.
    + intros column. apply split0_generation. lia.
    + change (Py.str (g + 1) +:+ "-") with (Py.str (g + 1) +:+ "-" +:+ "").
      apply split0_generation. lia.
Qed.

Lemma previousRunID_is_last_generation_witness :
  let fs : store := {[ log_path := ledger_after_generation "1" ]} in
  exists currentRunID,
    vulcanOutput fs self_2_200 = Ok currentRunID
    /\ Forall2 (fun column runID => previousRunID runID = Ok (Py.str 1 +:+ "-" +:+ column))
         ["200"; "201"] (runIDs currentRunID ["200"; "201"]).
Proof.
  apply (previousRunID_is_last_generation _ self_2_200 (ledger_after_generation "1") 1 "200");
    [discriminate | discriminate | reflexivity | reflexivity | lia | repeat constructor].
Defined.

(** At generation ten the first character alone is read: the file named
    is that of a generation zero. *)
Example previousRunID_ten column :
  String.length column = 3%nat -> previousRunID ("10-" +:+ column) = Ok ("0-" +:+ column).
Proof.
  intros H3. unfold previousRunID.
  change ("10-" +:+ column) with ("10-" +:+ column).
  rewrite (last3_app "10-" column H3). reflexivity.
Qed.

(** ** Translation layer: columns given as strings *)

Lemma join_empty_chars s : Py.join "" (Py.chars s) = s.
Proof.
  induction s as [|c s IH]; [reflexivity|].
  cbn [Py.chars Py.join]. destruct (Py.chars s) as [|x l] eqn:E.
  - destruct s; [reflexivity | discriminate].
  - change (String c "" +:+ "" +:+ Py.join "" (x :: l)) with (String c (Py.join "" (x :: l))).
    rewrite IH. reflexivity.
Qed.

Lemma res_mapM_PStr items :
  res_mapM (fun item => match item with
                        | PStr s => Ok s
                        | _ => Raise TypeError
                        end) (map PStr items) = Ok items.
Proof.
  induction items as [|s items IH]; [reflexivity|].
  cbn [map res_mapM]. simpl. rewrite IH. reflexivity.
Qed.

(** X17: [translateCol] treats a column given as a string and the same
    column given as the tuple of its characters alike, in both
    directions; the import direction returns the string itself, without
    calling [eval]. *)
Theorem translateCol_string_or_character_tuple py_eval direction s :
  translateCol py_eval direction (PTuple (map PStr (Py.chars s)))
  = translateCol py_eval direction (PStr s)
  /\ translateCol py_eval IMPORT (PStr s) = Ok (PStr s).
Proof.
  split.
  - unfold translateCol, join_items. rewrite res_mapM_PStr. reflexivity.
  - unfold translateCol, join_items. simpl. rewrite join_empty_chars. reflexivity.
Qed.

(** ** Floats: order and equality *)

Lemma SFcompare_refl f : f <> S754_nan -> SFcompare f f = Some Eq.
Proof.
  destruct f as [s|s| |s m e]; simpl; intros Hn; try reflexivity.
  - destruct s; reflexivity.
  - contradiction.
  - rewrite Z.compare_refl, Pos.compare_cont_refl. destruct s; reflexivity.
Qed.

Lemma SFcompare_not_nan f1 f2 c :
  SFcompare f1 f2 = Some c -> f1 <> S754_nan /\ f2 <> S754_nan.
Proof. destruct f1, f2; simpl; intros H; split; congruence. Qed.

Lemma SFcompare_Lt_trans a b c :
  SFcompare a b = Some Lt -> SFcompare b c = Some Lt -> SFcompare a c = Some Lt.
Proof.
  destruct a as [sa|sa| |sa ma ea], b as [sb|sb| |sb mb eb], c as [sc|sc| |sc mc ec];
    simpl; try discriminate;
    try (destruct sa; try discriminate); try (destruct sb; try discriminate);
    try (destruct sc; try discriminate); try reflexivity.
  all: change (Pos.compare_cont Eq ma mb) with (Pos.compare ma mb);
       change (Pos.compare_cont Eq mb mc) with (Pos.compare mb mc);
       change (Pos.compare_cont Eq ma mc) with (Pos.compare ma mc).
  all: destruct (Z.compare_spec ea eb), (Z.compare_spec eb ec), (Z.compare_spec ea ec);
       try discriminate; try reflexivity; try lia; subst.
  all: destruct (Pos.compare_spec ma mb), (Pos.compare_spec mb mc), (Pos.compare_spec ma mc);
       simpl; try discriminate; try reflexivity; try lia.
Qed.

(** [a < b] on floats excludes [a == b], and neither is a NaN. *)
Lemma float_ltb_eqb a b :
  PrimFloat.ltb a b = true ->
  PrimFloat.eqb a b = false /\ PrimFloat.eqb a a = true /\ PrimFloat.eqb b b = true.
Proof.
  rewrite FloatAxioms.ltb_spec, !FloatAxioms.eqb_spec. unfold SFltb, SFeqb.
  destruct (SFcompare (Prim2SF a) (Prim2SF b)) as [[| |]|] eqn:E; try discriminate.
  intros _. destruct (SFcompare_not_nan _ _ _ E) as [Ha Hb].
  rewrite !SFcompare_refl by assumption. auto.
Qed.

Lemma float_ltb_trans a b c :
  PrimFloat.ltb a b = true -> PrimFloat.ltb b c = true -> PrimFloat.ltb a c = true.
Proof.
  rewrite !FloatAxioms.ltb_spec. unfold SFltb.
  destruct (SFcompare (Prim2SF a) (Prim2SF b)) as [[| |]|] eqn:E1; try discriminate.
  destruct (SFcompare (Prim2SF b) (Prim2SF c)) as [[| |]|] eqn:E2; try discriminate.
  rewrite (SFcompare_Lt_trans _ _ _ E1 E2). reflexivity.
Qed.

(** ** Export for the perturbation module: the level of a height *)

Lemma strictlyIncreasing_lookup l :
  strictlyIncreasing l = true ->
  forall i j a b, (i < j)%nat -> l !! i = Some a -> l !! j = Some b ->
    PrimFloat.ltb a b = true.
Proof.
  induction l as [|x l IH]; intros H i j a b Hij Hi Hj; [discriminate|].
  cbn [strictlyIncreasing] in H. apply andb_prop in H as [Hx Hl].
  destruct j as [|j]; [lia|]. cbn in Hj.
  destruct i as [|i]; cbn in Hi.
  - injection Hi as <-. rewrite forallb_forall in Hx. apply Hx.
    apply list_elem_of_In, list_elem_of_lookup. exists j. exact Hj.
  - apply (IH Hl i j); [lia | assumption | assumption].
Qed.

Lemma filter_above_first h pre x post :
  Forall (fun z => PrimFloat.ltb h z = false) pre -> PrimFloat.ltb h x = true ->
  List.filter (fun z => PrimFloat.ltb h z) (pre ++ x :: post)
  = x :: List.filter (fun z => PrimFloat.ltb h z) post.
Proof.
  intros Hpre Hx. induction Hpre as [|z pre Hz _ IH]; cbn [app List.filter].
  - rewrite Hx. reflexivity.
  - rewrite Hz. exact IH.
Qed.

Lemma where_first_at x pre post :
  Forall (fun a => PrimFloat.eqb a x = false) pre -> PrimFloat.eqb x x = true ->
  where_first x (pre ++ x :: post) = Ok (length pre).
Proof.
  intros Hpre Hx. induction Hpre as [|a pre Ha _ IH]; cbn [app where_first length].
  - rewrite Hx. reflexivity.
  - rewrite Ha, IH. reflexivity.
Qed.

Lemma where_first_lookup l k x :
  strictlyIncreasing l = true -> l !! k = Some x -> PrimFloat.eqb x x = true ->
  where_first x l = Ok k.
Proof.
  intros Hinc Hk Hx.
  rewrite <- (take_drop_middle l k x Hk).
  rewrite where_first_at; [| |exact Hx].
  - f_equal. rewrite length_take. apply lookup_lt_Some in Hk. lia.
  - apply Forall_forall. intros a Ha. apply list_elem_of_lookup in Ha as [i Hi].
    pose proof (lookup_lt_Some _ _ _ Hi) as Hlt. rewrite length_take in Hlt.
    rewrite lookup_take_lt in Hi by lia.
    apply (float_ltb_eqb a x), (strictlyIncreasing_lookup l Hinc i k); [lia | assumption..].
Qed.

(** The search of [perturbColumn] in a strictly increasing grid, for a
    height that is below level k + 1 and not below level k. *)
Lemma perturb_level_found l h k lo up :
  strictlyIncreasing l = true ->
  l !! k = Some lo -> l !! S k = Some up ->
  PrimFloat.ltb h lo = false -> PrimFloat.ltb h up = true ->
  Py.index (List.filter (fun x => PrimFloat.ltb h x) l) 0 = Ok up
  /\ where_first up l = Ok (S k)
  /\ index_before l (S k) = Ok lo
  /\ where_first lo l = Ok k.
Proof.
  intros Hinc Hlo Hup Hnot Hlt.
  pose proof (strictlyIncreasing_lookup l Hinc k (S k) lo up ltac:(lia) Hlo Hup) as Hlu.
  destruct (float_ltb_eqb _ _ Hlu) as (_ & Hlo_eq & Hup_eq).
  split; [|split; [|split]].
  - rewrite <- (take_drop_middle l (S k) up Hup), filter_above_first; [reflexivity| |exact Hlt].
    apply Forall_forall. intros a Ha. apply list_elem_of_lookup in Ha as [i Hi].
    pose proof (lookup_lt_Some _ _ _ Hi) as Hi_lt. rewrite length_take in Hi_lt.
    rewrite lookup_take_lt in Hi by lia.
    destruct (decide (i = k)) as [->|Hne].
    + rewrite Hlo in Hi. injection Hi as <-. exact Hnot.
    + destruct (PrimFloat.ltb h a) eqn:Hha; [|reflexivity].
      rewrite <- Hnot. symmetry. apply (float_ltb_trans h a lo Hha).
      apply (strictlyIncreasing_lookup l Hinc i k); [lia | assumption..].
  - apply where_first_lookup; assumption.
  - unfold index_before, Py.index. rewrite Hlo. reflexivity.
  - apply where_first_lookup; assumption.
Qed.

(** What [perturbColumn] goes on to do once the level is found. *)
Lemma perturbColumn_found vul_data h k lo up :
  strictlyIncreasing (zco vul_data) = true ->
  zco vul_data !! k = Some lo -> zco vul_data !! S k = Some up ->
  PrimFloat.ltb h lo = false -> PrimFloat.ltb h up = true ->
  perturbColumn vul_data h
  = (lowerPressure ← Py.index (pico vul_data) k;
     upperPressure ← Py.index (pico vul_data) (k + 1);
     levelTemperature ← Py.index (Tco vul_data) k;
     spDict ← speciesAt vul_data k;
     Ok {| lowerHeight := (lo / 100)%float; upperHeight := (up / 100)%float;
           lowerPressure := (lowerPressure / 10)%float;
           upperPressure := (upperPressure / 10)%float;
           levelTemperature := levelTemperature;
           numberDensity := spDict; index := Z.of_nat k |}).
Proof.
  intros Hinc Hlo Hup Hnot Hlt.
  destruct (perturb_level_found _ h k lo up Hinc Hlo Hup Hnot Hlt) as (H1 & H2 & H3 & H4).
  unfold perturbColumn. rewrite H1. cbn [mbind res_bind]. rewrite H2. cbn [mbind res_bind].
  rewrite H3. cbn [mbind res_bind]. rewrite H4. cbn [mbind res_bind].
  destruct (Py.index (pico vul_data) k); [|reflexivity]. simpl.
  destruct (Py.index (pico vul_data) (k + 1)); reflexivity.
Qed.

(** X18: level selection.  In a strictly increasing grid, a height that
    is below level k + 1 and not below level k gets the data of level
    k: the two heights divided by 100, the pressures at k and k + 1
    divided by 10, the temperature and the number densities at k, and
    k as index. *)
Theorem perturbColumn_level vul_data h k lo up lowerP upperP temperature spDict :
  strictlyIncreasing (zco vul_data) = true ->
  zco vul_data !! k = Some lo -> zco vul_data !! S k = Some up ->
  PrimFloat.ltb h lo = false -> PrimFloat.ltb h up = true ->
  pico vul_data !! k = Some lowerP -> pico vul_data !! S k = Some upperP ->
  Tco vul_data !! k = Some temperature ->
  speciesAt vul_data k = Ok spDict ->
  perturbColumn vul_data h
  = Ok {| lowerHeight := (lo / 100)%float; upperHeight := (up / 100)%float;
          lowerPressure := (lowerP / 10)%float; upperPressure := (upperP / 10)%float;
          levelTemperature := temperature;
          numberDensity := spDict; index := Z.of_nat k |}.
Proof.
  intros Hinc Hlo Hup Hnot Hlt Hlp Hup_p HT Hsp.
  rewrite (perturbColumn_found _ h k lo up) by assumption.
  unfold Py.index. rewrite Hlp. simpl. replace (k + 1)%nat with (S k) by lia.
  rewrite Hup_p. simpl. rewrite HT. simpl. rewrite Hsp. reflexivity.
Qed.

(** X19: for a height inside the first level of a strictly increasing
    grid, the six quantities the export for PERTURB returns (heights,
    pressures, temperature, number densities) are exactly those of the
    raw column the export for MISTRA reads from the same output,
    exceptions included; the PERTURB result carries index 0 besides. *)
Theorem perturbColumn_first_level vul_data h lo up :
  strictlyIncreasing (zco vul_data) = true ->
  zco vul_data !! 0%nat = Some lo -> zco vul_data !! 1%nat = Some up ->
  PrimFloat.ltb h lo = false -> PrimFloat.ltb h up = true ->
  (perturbColumn vul_data h ≫= fun columnDict => Ok (quantities columnDict))
  = rawColumnOf vul_data
  /\ forall columnDict, perturbColumn vul_data h = Ok columnDict -> index columnDict = 0.
Proof.
  intros Hinc Hlo Hup Hnot Hlt.
  rewrite (perturbColumn_found _ h 0 lo up) by assumption. split.
  - unfold rawColumnOf, Py.index. rewrite Hlo, Hup. simpl.
    destruct (pico vul_data !! 0%nat); [|reflexivity]. simpl.
    destruct (pico vul_data !! 1%nat); [|reflexivity]. simpl.
    destruct (Tco vul_data !! 0%nat); [|reflexivity]. simpl.
    destruct (speciesAt vul_data 0); reflexivity.
  - intros columnDict H. unfold Py.index in H.
    destruct (pico vul_data !! 0%nat); [|discriminate]. simpl in H.
    destruct (pico vul_data !! 1%nat); [|discriminate]. simpl in H.
    destruct (Tco vul_data !! 0%nat); [|discriminate]. simpl in H.
    destruct (speciesAt vul_data 0); [|discriminate]. simpl in H.
    injection H as <-. reflexivity.
Qed.

(** X20: outside the grid.  A height that no grid level exceeds (above
    the top level, or not a number) raises IndexError.  A height below
    the lowest level of a strictly increasing grid takes that level as
    upper bound and, through index -1, the top level as lower bound;
    with no more pressures than heights the pressure above the top
    level is missing and IndexError is raised. *)
Theorem perturbColumn_outside_grid vul_data h :
  (Forall (fun x => PrimFloat.ltb h x = false) (zco vul_data) ->
   perturbColumn vul_data h = Raise IndexError)
  /\ (forall lowest,
        strictlyIncreasing (zco vul_data) = true ->
        zco vul_data !! 0%nat = Some lowest -> PrimFloat.ltb h lowest = true ->
        (length (pico vul_data) <= length (zco vul_data))%nat ->
        perturbColumn vul_data h = Raise IndexError).
Proof.
  split.
  - intros Hall. unfold perturbColumn.
    replace (List.filter (fun x => PrimFloat.ltb h x) (zco vul_data)) with (@nil float);
      [reflexivity|].
    induction Hall as [|x l Hx _ IH]; [reflexivity|]. cbn [List.filter]. rewrite Hx. exact IH.
  - intros lowest. unfold perturbColumn.
    destruct (zco vul_data) as [|x0 rest]; intros Hinc H0 Hlt Hlen; [discriminate|].
    cbn in H0. injection H0 as ->.
    destruct (float_ltb_eqb _ _ Hlt) as (_ & _ & Hlowest).
    cbn [List.filter]. rewrite Hlt. cbn [Py.index lookup list_lookup].
    simpl. rewrite Hlowest. simpl.
    destruct (last (lowest :: rest)) as [top|] eqn:Htop;
      [|apply last_None in Htop; discriminate].
    unfold Py.index_last. rewrite Htop. simpl.
    assert (Hk : (lowest :: rest) !! length rest = Some top).
    { rewrite last_lookup in Htop. exact Htop. }
    assert (Htop_eq : PrimFloat.eqb top top = true).
    { destruct rest as [|x1 rest'].
      - cbn in Hk. injection Hk as <-. exact Hlowest.
      - apply (float_ltb_eqb lowest top).
        apply (strictlyIncreasing_lookup _ Hinc 0 (length (x1 :: rest'))); [simpl; lia | reflexivity | exact Hk]. }
    pose proof (where_first_lookup _ _ _ Hinc Hk Htop_eq) as Hw.
    cbn [where_first] in Hw. rewrite Hw. simpl.
    unfold Py.index.
    destruct (pico vul_data !! length rest); [|reflexivity]. simpl.
    assert (Hnone : pico vul_data !! (length rest + 1)%nat = None)
      by (apply lookup_ge_None; simpl in Hlen; lia).
    rewrite Hnone. reflexivity.
Qed.

Lemma perturbColumn_level_witness :
  perturbColumn example_output 60000
  = Ok {| lowerHeight := 500; upperHeight := 1200;
          lowerPressure := 90000; upperPressure := 80000;
          levelTemperature := 290;
          numberDensity := {[ "OH" := 3%float; "H2O" := 4%float ]}; index := 1 |}.
Proof.
  apply (perturbColumn_level example_output 60000 1 50000 120000 900000 800000 290
           {[ "OH" := 3%float; "H2O" := 4%float ]});
    reflexivity.
Defined.

Lemma perturbColumn_first_level_witness :
  (perturbColumn example_output 100 ≫= fun columnDict => Ok (quantities columnDict))
  = rawColumnOf example_output
  /\ forall columnDict, perturbColumn example_output 100 = Ok columnDict -> index columnDict = 0.
Proof.
  apply (perturbColumn_first_level example_output 100 0 50000); reflexivity.
Defined.

Lemma perturbColumn_outside_grid_witness :
  perturbColumn example_output 250000 = Raise IndexError
  /\ perturbColumn example_output (-5) = Raise IndexError.
Proof.
  destruct (perturbColumn_outside_grid example_output 250000) as [Habove _].
  destruct (perturbColumn_outside_grid example_output (-5)) as [_ Hbelow].
  split.
  - apply Habove. repeat constructor.
  - apply (Hbelow 0%float); [reflexivity | reflexivity | reflexivity | simpl; lia].
Defined.

(** ** Export for the perturbation module: the shared iterator *)

Lemma seek_skip c pre l :
  Forall (fun cp : string * string => cp.1 <> c) pre -> seek c (pre ++ l) = seek c l.
Proof.
  intros Hpre. induction Hpre as [|[c' p] pre Hc _ IH]; [reflexivity|].
  cbn [app seek]. cbn [fst] in Hc.
  destruct (String.eqb_spec c c') as [->|_]; [contradiction | exact IH].
Qed.

Lemma seek_found c path l : seek c ((c, path) :: l) = (Some path, l).
Proof. cbn [seek]. rewrite String.eqb_refl. reflexivity. Qed.

Lemma seek_none c l :
  Forall (fun cp : string * string => cp.1 <> c) l -> seek c l = (None, []).
Proof. intros H. rewrite <- (app_nil_r l), seek_skip by exact H. reflexivity. Qed.

(** X21: the listing is an iterator that is never rewound.  When column
    [a] is listed before column [b] (and not again after it), a request
    for [b] and then [a] reports [a] with the data of [b]: the search
    for [a] finds nothing in what is left and the loaded output of the
    round before is used again. *)
Theorem perturbColumns_out_of_order pickles h vul_data a b pa pb pre mid post d columnDict :
  Forall (fun cp : string * string => cp.1 <> b) (pre ++ (a, pa) :: mid) ->
  Forall (fun cp : string * string => cp.1 <> a) post ->
  pickles !! pb = Some d ->
  perturbColumn d h = Ok columnDict ->
  perturbColumns pickles h [b; a] (pre ++ (a, pa) :: mid ++ (b, pb) :: post) vul_data
  = Ok [(b, columnDict); (a, columnDict)].
Proof.
  intros Hb Ha Hload Hcol.
  cbn [perturbColumns].
  replace (pre ++ (a, pa) :: mid ++ (b, pb) :: post)%list
    with ((pre ++ (a, pa) :: mid) ++ (b, pb) :: post)%list
    by (rewrite <- app_assoc; reflexivity).
  rewrite (seek_skip b _ _ Hb), seek_found.
  unfold pickle_load. rewrite Hload. cbn [mbind res_bind]. rewrite Hcol. cbn [mbind res_bind].
  rewrite (seek_none a post Ha). cbn [mbind res_bind]. rewrite Hcol. reflexivity.
Qed.

Lemma perturbColumns_out_of_order_witness :
  perturbColumns example_pickles 100 ["201"; "200"] example_zipped None
  = Ok [("201", {| lowerHeight := 0; upperHeight := 500;
                   lowerPressure := 100000; upperPressure := 90000;
                   levelTemperature := 310;
                   numberDensity := {[ "OH" := 1%float; "H2O" := 2%float ]}; index := 0 |});
        ("200", {| lowerHeight := 0; upperHeight := 500;
                   lowerPressure := 100000; upperPressure := 90000;
                   levelTemperature := 310;
                   numberDensity := {[ "OH" := 1%float; "H2O" := 2%float ]}; index := 0 |})].
Proof.
  apply (perturbColumns_out_of_order example_pickles 100 None "200" "201"
           "/scum/output/vul-runtime/vul-run-1-200-output.vul"
           "/scum/output/vul-runtime/vul-run-1-201-output.vul"
           [] [] [] example_output_warm).
  - repeat constructor. discriminate.
  - constructor.
  - reflexivity.
  - vm_compute. reflexivity.
Defined.

Lemma res_mapM_ext_in {A B} (f g : A -> res B) (l : list A) :
  (forall a, a ∈ l -> f a = g a) -> res_mapM f l = res_mapM g l.
Proof.
  induction l as [|a l IH]; intros H; [reflexivity|].
  cbn [res_mapM]. rewrite (H a) by left. rewrite IH; [reflexivity|].
  intros a' Ha'. apply H. right. exact Ha'.
Qed.

(** X22: requests in listing order.  When the requested columns follow
    the order of a listing without repeated columns, every request is
    answered from the output file listed for its own column, and the
    result (or the first exception) is that of handling the requests
    one by one against the whole listing. *)
Theorem perturbColumns_in_order pickles h :
  forall columnInterestList latestRunZipped vul_data,
    NoDup (map fst latestRunZipped) ->
    sublist columnInterestList (map fst latestRunZipped) ->
    perturbColumns pickles h columnInterestList latestRunZipped vul_data
    = res_mapM (fun column =>
                  match (seek column latestRunZipped).1 with
                  | Some path =>
                      d ← pickle_load pickles path;
                      columnDict ← perturbColumn d h;
                      Ok (column, columnDict)
                  | None => Raise UnboundLocalError
                  end) columnInterestList.
Proof.
  induction columnInterestList as [|c rest IH]; intros zipped v Hnd Hsub; [reflexivity|].
  apply sublist_cons_l in Hsub as (k1 & k2 & Hsplit & Hrest).
  apply fmap_app_inv in Hsplit as (pre & tail & -> & Htail & ->).
  symmetry in Htail. apply fmap_cons_inv in Htail as ([c' path] & remaining & Hc & -> & ->).
  cbn [fst] in Hc. subst c'.
  rewrite map_app in Hnd. cbn [map fst] in Hnd.
  apply NoDup_app in Hnd as (_ & Hdisj & Hnd).
  apply NoDup_cons in Hnd as [Hc Hnd].
  assert (Hpre : Forall (fun cp : string * string => cp.1 <> c) pre).
  { apply Forall_forall. intros cp Hin E. apply (Hdisj c); [|left].
    apply list_elem_of_fmap. exists cp. split; [symmetry; exact E | exact Hin]. }
  cbn [perturbColumns res_mapM].
  rewrite (seek_skip c pre _ Hpre), seek_found. cbn [fst].
  destruct (pickle_load pickles path) as [d|e]; [|reflexivity]. cbn [mbind res_bind].
  destruct (perturbColumn d h) as [columnDict|e]; [|reflexivity]. cbn [mbind res_bind].
  rewrite (IH remaining (Some d) Hnd Hrest).
  f_equal. apply res_mapM_ext_in. intros c2 Hc2.
  assert (Hin : c2 ∈ map fst remaining) by (eapply elem_of_sublist; eassumption).
  rewrite (seek_skip c2 pre).
  - cbn [seek]. destruct (String.eqb_spec c2 c) as [->|_]; [contradiction | reflexivity].
  - apply Forall_forall. intros cp Hcp E. apply (Hdisj c2); [|right; exact Hin].
    apply list_elem_of_fmap. exists cp. split; [symmetry; exact E | exact Hcp].
Qed.

Lemma perturbColumns_in_order_witness :
  exists r200 r201,
    perturbColumn example_output 100 = Ok r200
    /\ perturbColumn example_output_warm 100 = Ok r201
    /\ perturbColumns example_pickles 100 ["200"; "201"] example_zipped None
       = Ok [("200", r200); ("201", r201)].
Proof.
  eexists _, _. split; [vm_compute; reflexivity|]. split; [vm_compute; reflexivity|].
  rewrite (perturbColumns_in_order example_pickles 100 ["200"; "201"] example_zipped None).
  - vm_compute. reflexivity.
  - repeat constructor; [intros H; apply list_elem_of_singleton in H; discriminate
                        | intros H; inversion H].
  - reflexivity.
Defined.

(** ** Dedup engine: comments and blank lines *)

Lemma split_no_char c s :
  Py.contains (String c EmptyString) s = false -> Py.split (String c EmptyString) s = [s].
Proof.
  induction s as [|a s IH]; intros H; [reflexivity|].
  rewrite contains_char_cons in H. apply orb_false_iff in H as [Ha H].
  rewrite split_char_cons, Ha, (IH H). reflexivity.
Qed.

Lemma split_char_app c a b :
  Py.contains (String c EmptyString) a = false ->
  Py.split (String c EmptyString) (a +:+ String c b)
  = a :: Py.split (String c EmptyString) b.
Proof.
  induction a as [|x a IH]; intros Ha.
  - change (EmptyString +:+ String c b) with (String c b).
    rewrite split_char_cons, Ascii.eqb_refl. reflexivity.
  - rewrite contains_char_cons in Ha. apply orb_false_iff in Ha as [Hx Ha].
    change (String x a +:+ String c b) with (String x (a +:+ String c b)).
    rewrite split_char_cons, Hx, (IH Ha). reflexivity.
Qed.

(** A string of whitespace holds no other character. *)
Lemma rstrip_empty_no_char c s :
  Py.rstrip s = EmptyString -> Py.isspace c = false ->
  Py.contains (String c EmptyString) s = false.
Proof.
  induction s as [|a s IH]; intros H Hc; [reflexivity|].
  rewrite rstrip_cons in H. destruct (Py.rstrip s) eqn:E; [|discriminate].
  destruct (Py.isspace a) eqn:Ha; [|discriminate].
  rewrite contains_char_cons, (IH eq_refl Hc), orb_false_r.
  apply Ascii.eqb_neq. intros ->. congruence.
Qed.

Lemma rstrip_app_nonspace u c v :
  Py.isspace c = false -> Py.rstrip (u +:+ String c v) = u +:+ String c (Py.rstrip v).
Proof.
  intros Hc. induction u as [|d u IH].
  - change (EmptyString +:+ String c v) with (String c v).
    rewrite rstrip_cons, Hc. destruct (Py.rstrip v); reflexivity.
  - change (String d u +:+ String c v) with (String d (u +:+ String c v)).
    rewrite rstrip_cons, IH. destruct u; reflexivity.
Qed.

Lemma lstrip_app_nonempty a r x t :
  Py.lstrip a = String x t -> Py.lstrip (a +:+ r) = String x t +:+ r.
Proof.
  induction a as [|c a IH]; [discriminate|].
  change (String c a +:+ r) with (String c (a +:+ r)). cbn [Py.lstrip].
  destruct (Py.isspace c); [exact IH|]. intros H. rewrite <- H. reflexivity.
Qed.

Lemma lstrip_app_empty a r :
  Py.lstrip a = EmptyString -> Py.lstrip (a +:+ r) = Py.lstrip r.
Proof.
  induction a as [|c a IH]; [reflexivity|].
  change (String c a +:+ r) with (String c (a +:+ r)). cbn [Py.lstrip].
  destruct (Py.isspace c); [exact IH | discriminate].
Qed.

(** Stripping on the left and on the right commute. *)
Lemma rstrip_lstrip s : Py.rstrip (Py.lstrip s) = Py.lstrip (Py.rstrip s).
Proof.
  induction s as [|c s IH]; [reflexivity|].
  rewrite (rstrip_cons c s). cbn [Py.lstrip]. destruct (Py.isspace c) eqn:Hc.
  - rewrite IH. destruct (Py.rstrip s); [reflexivity|]. cbn [Py.lstrip]. rewrite Hc. reflexivity.
  - rewrite rstrip_cons. destruct (Py.rstrip s); cbn [Py.lstrip]; rewrite Hc; reflexivity.
Qed.

Lemma rstrip_eq_strip p q : Py.rstrip p = Py.rstrip q -> Py.strip p = Py.strip q.
Proof. intros H. unfold Py.strip. rewrite !rstrip_lstrip, H. reflexivity. Qed.

Lemma split_cons_rstrip c s1 s2 :
  Forall2 (fun p q => Py.rstrip p = Py.rstrip q) (Py.split "=" s1) (Py.split "=" s2) ->
  Forall2 (fun p q => Py.rstrip p = Py.rstrip q)
          (Py.split "=" (String c s1)) (Py.split "=" (String c s2)).
Proof.
  intros H. rewrite !(split_char_cons "="). destruct (Ascii.eqb "=" c).
  - constructor; [reflexivity | exact H].
  - destruct (Py.split "=" s1) as [|p ps], (Py.split "=" s2) as [|q qs];
      inversion H; subst.
    + repeat constructor.
    + constructor; [|assumption]. rewrite !rstrip_cons.
      match goal with Hpq : Py.rstrip _ = Py.rstrip _ |- _ => rewrite Hpq end. reflexivity.
Qed.

(** Whitespace at the end of a line touches only the last piece of its
    split at the equal signs. *)
Lemma split_rstrip s :
  Forall2 (fun p q => Py.rstrip p = Py.rstrip q)
          (Py.split "=" (Py.rstrip s)) (Py.split "=" s).
Proof.
  induction s as [|c s IH]; [repeat constructor|].
  rewrite rstrip_cons. destruct (Py.rstrip s) as [|d r] eqn:E.
  - destruct (Py.isspace c) eqn:Hc.
    + assert (Hr : Py.rstrip (String c s) = EmptyString)
        by (rewrite rstrip_cons, E, Hc; reflexivity).
      rewrite (split_no_char "=" (String c s))
        by (apply rstrip_empty_no_char; [exact Hr | reflexivity]).
      repeat constructor. symmetry. exact Hr.
    + apply split_cons_rstrip. exact IH.
  - apply split_cons_rstrip. exact IH.
Qed.

Lemma varOf_rstrip s : varOf (Py.rstrip s) = varOf s.
Proof.
  pose proof (split_rstrip s) as H. unfold varOf, Py.split0. f_equal.
  - destruct H as [|p q ps qs Hpq _]; [reflexivity|]. apply rstrip_eq_strip, Hpq.
  - pose proof (proj1 (Forall2_lookup _ _ _) H 1%nat) as H1.
    destruct H1 as [p q Hpq|]; [|reflexivity]. simpl. f_equal. apply rstrip_eq_strip, Hpq.
Qed.

Lemma lines_4_app l1 l2 : lines_4 (l1 ++ l2) = (lines_4 l1 ++ lines_4 l2)%list.
Proof.
  unfold lines_4, lines_3, lines_2, lines_1.
  rewrite !map_app, !List.filter_app. reflexivity.
Qed.

Lemma lines_4_cons c l : lines_4 (c :: l) = (lines_4 [c] ++ lines_4 l)%list.
Proof. exact (lines_4_app [c] l). Qed.

(** A line contributes what stands before its first '#', stripped on
    the left, unless that is empty; the last filter of
    [checkDupLinesToDict] never removes a line. *)
Lemma lines_4_single c :
  lines_4 [c]
  = match Py.split0 "#" (Py.strip c) with
    | EmptyString => []
    | x => [x]
    end.
Proof.
  unfold lines_4, lines_3, lines_2, lines_1. cbn [map List.filter].
  pose proof (split0_no_char "#" (Py.strip c)) as Hno.
  destruct (Py.split0 "#" (Py.strip c)) as [|a x]; [reflexivity|].
  rewrite contains_char_cons in Hno. apply orb_false_iff in Hno as [Ha _].
  cbn. rewrite Ascii.eqb_sym, Ha. reflexivity.
Qed.

Lemma lines_4_comment c :
  Py.strip c = EmptyString \/ Py.startswith "#" (Py.strip c) = true -> lines_4 [c] = [].
Proof.
  intros H. rewrite lines_4_single. destruct H as [-> | H]; [reflexivity|].
  destruct (Py.strip c) as [|a s]; [reflexivity|].
  rewrite startswith_char in H. rewrite split0_char_cons, H. reflexivity.
Qed.

Lemma lines_4_trailing_comment a b :
  Py.contains "#" a = false ->
  map varOf (lines_4 [a +:+ "#" +:+ b]) = map varOf (lines_4 [a]).
Proof.
  intros Ha. rewrite !lines_4_single.
  change (a +:+ "#" +:+ b) with (a +:+ String "#" b).
  assert (H1 : Py.split0 "#" (Py.strip (a +:+ String "#" b)) = Py.lstrip a).
  { unfold Py.strip. destruct (Py.lstrip a) as [|x t] eqn:E.
    - rewrite (lstrip_app_empty _ _ E).
      change (Py.lstrip (String "#" b)) with (EmptyString +:+ String "#" b).
      rewrite rstrip_app_nonspace by reflexivity.
      apply (split0_char_app "#" EmptyString). reflexivity.
    - rewrite (lstrip_app_nonempty _ _ _ _ E), rstrip_app_nonspace by reflexivity.
      apply (split0_char_app "#"). rewrite <- E. apply contains_char_lstrip, Ha. }
  assert (H2 : Py.split0 "#" (Py.strip a) = Py.strip a).
  { unfold Py.split0. rewrite (split_no_char "#"); [reflexivity|].
    apply contains_char_rstrip, contains_char_lstrip, Ha. }
  rewrite H1, H2. unfold Py.strip.
  destruct (Py.lstrip a) as [|x t] eqn:E; [reflexivity|].
  pose proof (lstrip_head _ _ _ E) as Hx.
  destruct (Py.rstrip (String x t)) as [|x' t'] eqn:E2.
  - rewrite rstrip_cons, Hx in E2. destruct (Py.rstrip t); discriminate.
  - cbn [map]. f_equal. rewrite <- E2. symmetry. apply varOf_rstrip.
Qed.

Section CommentBlind.

Variable py_eval : frame -> string -> res PyVal.
Variable py_ne : PyVal -> PyVal -> bool.

(** On values that evaluate alike in every frame, the parse reads a line
    only through its name and raw value. *)
Lemma linesToDict_varOf cfgFileLines ign cfgFileLines' ign' l1 :
  valuesFrameIndependent py_eval (map varOf l1) ->
  forall l2 dict newValue newValue', map varOf l1 = map varOf l2 ->
    linesToDict py_eval cfgFileLines ign l1 dict newValue
    = linesToDict py_eval cfgFileLines' ign' l2 dict newValue'.
Proof.
  induction l1 as [|a l1 IH]; intros Hind [|b l2] dict newValue newValue' H;
    try discriminate; [reflexivity|].
  cbn [map] in H, Hind. injection H as Hk Hv Hrest.
  apply Forall_cons in Hind as [Ha Hind]. unfold varOf in Ha. cbn [snd] in Ha.
  cbn [linesToDict]. rewrite Hk. unfold Py.index.
  destruct (Py.split "=" a !! 1%nat) as [u|], (Py.split "=" b !! 1%nat) as [w|];
    simpl in Hv; try discriminate; [|reflexivity].
  injection Hv as Hv. simpl. rewrite <- Hv.
  pose proof (Ha (Py.strip u) eq_refl) as Hfi.
  match goal with
  | |- match py_eval ?f1 _ with _ => _ end = match py_eval ?f2 _ with _ => _ end =>
      rewrite (Hfi f1 f2)
  end.
  destruct (py_eval _ _); [apply IH; assumption | reflexivity].
Qed.

Lemma checkDupLinesToDict_same_variables l1 l2 ign :
  configVariables l1 = configVariables l2 ->
  valuesFrameIndependent py_eval (configVariables l1) ->
  checkDupLinesToDict py_eval l1 ign = checkDupLinesToDict py_eval l2 ign.
Proof.
  unfold checkDupLinesToDict, configVariables. intros H Hind.
  rewrite (linesToDict_varOf l1 ign l2 ign _ Hind _ ∅ None None H). reflexivity.
Qed.

Lemma readlines_not_empty (fs : store) p lines : readlines fs p = Ok lines -> p <> EmptyString.
Proof. unfold readlines, lookup_file. intros H ->. simpl in H. discriminate. Qed.

(** Rewriting an artifact without changing its variables leaves the
    check as it is, when the values evaluate alike in every frame. *)
Lemma checkDup_same_variables fs self p old new ignoreLines :
  readlines fs (cfgComparator self) = Ok ignoreLines ->
  p <> cfgComparator self -> p <> VulcanRuntimeLogFilePath self ->
  readlines fs p = Ok old -> configVariables old = configVariables new ->
  valuesFrameIndependent py_eval (configVariables old) ->
  checkDup py_eval py_ne (<[p := new]> fs) self = checkDup py_eval py_ne fs self.
Proof.
  intros Hcmp Hp1 Hp2 Hold Hvars Hind. symmetry. apply (checkDup_ext _ _ _ _ _ ignoreLines).
  - symmetry. apply (path_exists_overwrite _ _ old). exact Hold.
  - exact Hcmp.
  - rewrite readlines_insert_ne by exact Hp1. exact Hcmp.
  - rewrite readlines_insert_ne by exact Hp2. reflexivity.
  - intros q. unfold parseAt. destruct (decide (p = q)) as [<-|Hne].
    + rewrite Hold, readlines_insert_eq by exact (readlines_not_empty _ _ _ Hold). simpl.
      apply checkDupLinesToDict_same_variables; assumption.
    + rewrite readlines_insert_ne by exact Hne. reflexivity.
Qed.

(** X23: the check does not see comments, in an artifact whose values
    evaluate alike in every frame of the parser (literals do; a value
    such as len(cfgFileLines) reads the lines, comments included).  In
    any such artifact the check reads (the working one or an earlier
    one), dropping a line that is blank or starts with '#', or cutting
    a line at its first '#', leaves the answer of [checkDup] unchanged:
    everything from the first '#' of a line on is ignored, inside a
    quoted value too. *)
Theorem checkDup_comment_blind fs self p ignoreLines pre post :
  readlines fs (cfgComparator self) = Ok ignoreLines ->
  p <> cfgComparator self -> p <> VulcanRuntimeLogFilePath self ->
  (forall c,
      Py.strip c = EmptyString \/ Py.startswith "#" (Py.strip c) = true ->
      readlines fs p = Ok (pre ++ c :: post)%list ->
      valuesFrameIndependent py_eval (configVariables (pre ++ c :: post)) ->
      checkDup py_eval py_ne (<[p := (pre ++ post)%list]> fs) self
      = checkDup py_eval py_ne fs self)
  /\ (forall a b,
        Py.contains "#" a = false ->
        readlines fs p = Ok (pre ++ (a +:+ "#" +:+ b) :: post)%list ->
        valuesFrameIndependent py_eval (configVariables (pre ++ (a +:+ "#" +:+ b) :: post)) ->
        checkDup py_eval py_ne (<[p := (pre ++ a :: post)%list]> fs) self
        = checkDup py_eval py_ne fs self).
Proof.
  intros Hcmp Hp1 Hp2. split.
  - intros c Hc Hread Hind.
    apply (checkDup_same_variables fs self p _ _ ignoreLines Hcmp Hp1 Hp2 Hread); [|exact Hind].
    unfold configVariables.
    rewrite (lines_4_app pre (c :: post)), (lines_4_cons c post), (lines_4_comment c Hc).
    rewrite lines_4_app. reflexivity.
  - intros a b Ha Hread Hind.
    apply (checkDup_same_variables fs self p _ _ ignoreLines Hcmp Hp1 Hp2 Hread); [|exact Hind].
    unfold configVariables.
    rewrite (lines_4_app pre (_ :: post)), (lines_4_cons (a +:+ "#" +:+ b) post).
    rewrite (lines_4_app pre (a :: post)), (lines_4_cons a post).
    rewrite !map_app, (lines_4_trailing_comment a b Ha). reflexivity.
Qed.

End CommentBlind.

Lemma checkDup_comment_blind_witness :
  let fs := files_two_generations in
  checkDup literal_eval_in literal_ne
    (<[latest_path := tail (cfg_lines "20" "'2-201'")]> fs) self_2_201
  = checkDup literal_eval_in literal_ne fs self_2_201
  /\ checkDup literal_eval_in literal_ne
       (<[cfg_path "2-200" := ("# ===== VULCAN base parameters =====" +:+ nl)
                              :: "out_name = 'vul'   "
                              :: tail (tail (cfg_lines "20" "'2-200'"))]> fs) self_2_201
     = checkDup literal_eval_in literal_ne fs self_2_201.
Proof.
  intros fs.
  assert (Hlit : forall vars, valuesFrameIndependent literal_eval_in vars).
  { intros vars. apply Forall_forall. intros kv _ value _ locals locals'. reflexivity. }
  split.
  - destruct (checkDup_comment_blind literal_eval_in literal_ne fs self_2_201 latest_path
                comparator_lines [] (tail (cfg_lines "20" "'2-201'")) eq_refl)
      as [Hdrop _]; [vm_compute; discriminate | vm_compute; discriminate |].
    apply (Hdrop ("# ===== VULCAN base parameters =====" +:+ nl));
      [right; reflexivity | reflexivity | apply Hlit].
  - destruct (checkDup_comment_blind literal_eval_in literal_ne fs self_2_201
                (cfg_path "2-200") comparator_lines
                [ "# ===== VULCAN base parameters =====" +:+ nl ]
                (tail (tail (cfg_lines "20" "'2-200'"))) eq_refl)
      as [_ Hcut]; [vm_compute; discriminate | vm_compute; discriminate |].
    apply (Hcut "out_name = 'vul'   " (" output name" +:+ nl));
      [reflexivity | reflexivity | apply Hlit].
Defined.

(** ** Config assembler: the side artifact of an earlier column *)

Section SideArtifact.

(** [eval] as [translateCol] calls it and as the parser of the check
    does. *)
Variable py_eval : string -> res PyVal.
Variable py_eval_in : frame -> string -> res PyVal.
Variable py_ne : PyVal -> PyVal -> bool.

(** The loop over the inbound mapping leaves its state alone when no
    entry names the column. *)
Lemma injectImport_no_entry self column importCfgVulcan :
  Forall (fun entry : PyVal * list (string * float) =>
            translateCol py_eval IMPORT entry.1 <> Ok (PStr column)) importCfgVulcan ->
  forall acc inj, injectImport py_eval self column importCfgVulcan acc = Ok inj -> inj = acc.
Proof.
  induction 1 as [|[positionString updateDict] rest Hentry _ IH]; intros acc inj H.
  - injection H as <-. reflexivity.
  - cbn [injectImport] in H. cbn [fst] in Hentry.
    destruct (translateCol py_eval IMPORT positionString) as [t|e]; [|discriminate].
    cbn [mbind res_bind] in H.
    destruct t as [| | | | s | |]; try exact (IH _ _ H).
    destruct (String.eqb_spec s column) as [->|_]; [contradiction | exact (IH _ _ H)].
Qed.

(** X24: the side-artifact path is never cleared.  A column for which
    the inbound mapping has no entry keeps the path the controller
    held before it and writes no side artifact of its own; so when a
    side artifact written for an earlier column is still there,
    [checkDup] answers Fresh for this column whatever its artifact
    holds. *)
Theorem side_artifact_outlives_its_column fs self column importCfgVulcan inj :
  Forall (fun entry : PyVal * list (string * float) =>
            translateCol py_eval IMPORT entry.1 <> Ok (PStr column)) importCfgVulcan ->
  cfgVulcan_import py_eval (nextColumn self column) column importCfgVulcan = Ok inj ->
  inj_modifyAtmFilePath inj = modifyAtmFilePath self
  /\ inj_modify_atm inj = None
  /\ (path_exists fs (modifyAtmFilePath self) = true ->
      checkDup py_eval_in py_ne fs (afterImport (nextColumn self column) inj) = Ok Fresh).
Proof.
  intros Hnone H. unfold cfgVulcan_import in H.
  assert (Hinj : inj = {| inj_modifyAtmFilePath := modifyAtmFilePath self;
                          inj_modify_atm := None; inj_newValue := None |}).
  { destruct (String.eqb _ USE_LATEST_VUL).
    - exact (injectImport_no_entry _ _ _ Hnone _ _ H).
    - injection H as <-. reflexivity. }
  subst inj. split; [reflexivity|]. split; [reflexivity|].
  intros Hthere. unfold checkDup. cbn [afterImport modifyAtmFilePath inj_modifyAtmFilePath].
  rewrite Hthere. reflexivity.
Qed.

End SideArtifact.

Lemma side_artifact_outlives_its_column_witness :
  let fs := <[modify_atm_path "2-200" := ["{"; "}"]]> files_two_generations in
  let importCfgVulcan := [(PStr "200", [("lowerHeight", 5%float)])] in
  exists inj,
    cfgVulcan_import literal_eval (nextColumn self_2_200_pending "201") "201" importCfgVulcan
    = Ok inj
    /\ inj_modifyAtmFilePath inj = modify_atm_path "2-200"
    /\ checkDup literal_eval_in literal_ne fs
         (afterImport (nextColumn self_2_200_pending "201") inj) = Ok Fresh
    /\ checkDup literal_eval_in literal_ne fs self_2_201
       = Ok (Reuse (cfg_path "2-200") latest_path).
Proof.
  intros fs importCfgVulcan.
  assert (Hnone : Forall (fun entry : PyVal * list (string * float) =>
                            translateCol literal_eval IMPORT entry.1 <> Ok (PStr "201"))
                         importCfgVulcan) by (repeat constructor; discriminate).
  exists {| inj_modifyAtmFilePath := modify_atm_path "2-200";
            inj_modify_atm := None; inj_newValue := None |}.
  split; [reflexivity|].
  destruct (side_artifact_outlives_its_column literal_eval literal_eval_in literal_ne fs
              self_2_200_pending "201" importCfgVulcan _ Hnone eq_refl)
    as (Hpath & _ & Hfresh).
  split; [exact Hpath|]. split; [apply Hfresh; reflexivity | vm_compute; reflexivity].
Defined.

(** ** Config assembler: the output name *)

Lemma substring_prefix a b : String.substring 0 (String.length a) (a +:+ b) = a.
Proof. induction a as [|x a IH]; [destruct b; reflexivity|]. simpl. f_equal. exact IH. Qed.

Lemma substring_tail q s n : String.substring 1 n (String q s) = String.substring 0 n s.
Proof. reflexivity. Qed.

Lemma filter_first_match {A} (f : A -> bool) pre x post :
  Forall (fun a => f a = false) pre -> f x = true ->
  List.filter f (pre ++ x :: post) = x :: List.filter f post.
Proof.
  intros Hpre Hx. induction Hpre as [|a pre Ha _ IH]; cbn [app List.filter].
  - rewrite Hx. reflexivity.
  - rewrite Ha. exact IH.
Qed.

(** X25: the output name is read back from the artifact as the value of
    the first line that assigns 'out_name', stripped, without its first
    and last characters, whatever these are: for out_name = 'vul' it
    is vul, and when a comment follows on the line the opening quote
    and the last character of the comment are what is dropped.
    Without such a line [cfgVulcan] raises IndexError. *)
Theorem outNameOf_reads_between_first_and_last cfgData :
  (Forall (fun line => lineKey line <> "out_name") cfgData ->
   outNameOf cfgData = Raise IndexError)
  /\ (forall pre q text x trailing post,
        cfgData = (pre ++ ("out_name = " +:+ String q (text +:+ String x trailing)) :: post)%list ->
        Forall (fun line => lineKey line <> "out_name") pre ->
        Py.isspace q = false -> Py.isspace x = false -> Py.rstrip trailing = EmptyString ->
        Py.contains "=" (String q (text +:+ String x EmptyString)) = false ->
        outNameOf cfgData = Ok text).
Proof.
  split.
  - intros Hall. unfold outNameOf.
    replace (List.filter _ cfgData) with (@nil string); [reflexivity|].
    induction Hall as [|line l Hline _ IH]; [reflexivity|]. cbn [List.filter].
    apply String.eqb_neq in Hline. rewrite Hline. exact IH.
  - intros pre q text x trailing post -> Hpre Hq Hx Htrail Hno.
    set (value := String " " (String q (text +:+ String x trailing))).
    assert (Hvalue : Py.contains "=" value = false).
    { unfold value. rewrite contains_char_cons. cbn [Ascii.eqb Bool.eqb andb orb].
      rewrite contains_char_cons in Hno |- *. apply orb_false_iff in Hno as [Hq' Hno].
      rewrite Hq'. cbn [orb]. rewrite contains_char_app in Hno |- *.
      apply orb_false_iff in Hno as [Htext Hx'].
      rewrite Htext. cbn [orb]. rewrite contains_char_cons in Hx' |- *.
      apply orb_false_iff in Hx' as [Hx' _]. rewrite Hx'. cbn [orb].
      apply rstrip_empty_no_char; [exact Htrail | reflexivity]. }
    assert (Hsplit : Py.split "=" ("out_name = " +:+ String q (text +:+ String x trailing))
                     = ["out_name "; value]).
    { change ("out_name = " +:+ String q (text +:+ String x trailing))
        with ("out_name " +:+ String "=" value).
      rewrite (split_char_app "=") by reflexivity. rewrite (split_no_char "=" _ Hvalue).
      reflexivity. }
    unfold outNameOf. rewrite filter_first_match.
    + cbn [Py.index lookup list_lookup mbind res_bind]. rewrite Hsplit.
      cbn [Py.index lookup list_lookup mbind res_bind]. f_equal.
      unfold value, Py.strip. cbn [Py.lstrip]. change (Py.isspace " ") with true. cbv iota.
      rewrite Hq.
      change (String q (text +:+ String x trailing)) with (String q text +:+ String x trailing).
      rewrite rstrip_app_nonspace, Htrail by exact Hx.
      change (String q text +:+ String x EmptyString)
        with (String q (text +:+ String x EmptyString)).
      unfold slice_inner. rewrite substring_tail. cbn [String.length].
      rewrite length_append. cbn [String.length].
      replace (S (String.length text + 1) - 2)%nat with (String.length text) by lia.
      apply substring_prefix.
    + apply Forall_forall. intros line Hin. rewrite Forall_forall in Hpre.
      apply String.eqb_neq, Hpre, Hin.
    + unfold lineKey, Py.split0. rewrite Hsplit. reflexivity.
Qed.

Lemma outNameOf_reads_between_first_and_last_witness :
  outNameOf [ "nz = 20" +:+ nl ] = Raise IndexError
  /\ outNameOf [ "nz = 20" +:+ nl; "out_name = 'vul'" +:+ nl ] = Ok "vul"
  /\ outNameOf (cfg_lines "20" "'1-200'") = Ok "vul'   # output nam".
Proof.
  split; [|split].
  - apply (proj1 (outNameOf_reads_between_first_and_last _)).
    repeat constructor. discriminate.
  - apply (proj2 (outNameOf_reads_between_first_and_last _)
             [ "nz = 20" +:+ nl ] "'"%char "vul" "'"%char nl []);
      try reflexivity.
    repeat constructor. discriminate.
  - apply (proj2 (outNameOf_reads_between_first_and_last _)
             [ "# ===== VULCAN base parameters =====" +:+ nl ]
             "'"%char "vul'   # output nam" "e"%char nl
             (tail (tail (cfg_lines "20" "'1-200'"))));
      try reflexivity.
    repeat constructor. discriminate.
Defined.

(** ** Config assembler: the populator of an initial run *)

Lemma populate_positions (merged combineDict : gmap string string) t l :
  foldl (fun combineDict pos => if String.eqb pos t then merged else combineDict)
        combineDict l
  = if existsb (fun pos => String.eqb pos t) l then merged else combineDict.
Proof.
  revert combineDict. induction l as [|pos l IH]; intros combineDict; [reflexivity|].
  cbn [foldl existsb]. rewrite IH.
  destruct (String.eqb pos t); [|reflexivity].
  destruct (existsb _ l); reflexivity.
Qed.

Lemma populate_step controllerCfgVulcan column (combineDict : gmap string string)
  (entry : string * gmap string string) :
  foldl (fun combineDict pos =>
           if String.eqb pos (drop_first column)
           then entry.2 ∪ controllerCfgVulcan
           else combineDict)
        combineDict (populatorPositions entry.1)
  = if listsColumn entry.1 column then entry.2 ∪ controllerCfgVulcan else combineDict.
Proof. apply populate_positions. Qed.

(** X26: on an initial run the overrides of the populator are those of
    the last entry that lists the column's position (the column ID
    without its first character), laid over the controller's
    configuration; entries that list it earlier are dropped, not
    merged, and with no such entry the configuration is used as it
    is. *)
Theorem populate_last_entry_wins controllerCfgVulcan column :
  (forall vulcanPopulator,
      Forall (fun entry : string * gmap string string => listsColumn entry.1 column = false)
             vulcanPopulator ->
      populate controllerCfgVulcan vulcanPopulator column = controllerCfgVulcan)
  /\ (forall before positionString updateDict after,
        listsColumn positionString column = true ->
        Forall (fun entry : string * gmap string string => listsColumn entry.1 column = false)
               after ->
        populate controllerCfgVulcan (before ++ (positionString, updateDict) :: after) column
        = updateDict ∪ controllerCfgVulcan
        /\ forall varName,
             populate controllerCfgVulcan (before ++ (positionString, updateDict) :: after)
                      column !! varName
             = match updateDict !! varName with
               | Some newVar => Some newVar
               | None => controllerCfgVulcan !! varName
               end).
Proof.
  assert (Hskip : forall l (combineDict : gmap string string),
            Forall (fun entry : string * gmap string string =>
                      listsColumn entry.1 column = false) l ->
            foldl (fun combineDict entry =>
                     foldl (fun combineDict pos =>
                              if String.eqb pos (drop_first column)
                              then entry.2 ∪ controllerCfgVulcan
                              else combineDict)
                           combineDict (populatorPositions entry.1))
                  combineDict l = combineDict).
  { intros l combineDict Hl. revert combineDict.
    induction Hl as [|entry l He _ IH]; intros combineDict; [reflexivity|].
    cbn [foldl]. rewrite populate_step, He. apply IH. }
  split.
  - intros vulcanPopulator Hnone. apply Hskip, Hnone.
  - intros before positionString updateDict after Hlists Hafter.
    assert (Heq : populate controllerCfgVulcan
                    (before ++ (positionString, updateDict) :: after) column
                  = updateDict ∪ controllerCfgVulcan).
    { unfold populate. rewrite foldl_app. cbn [foldl].
      rewrite populate_step. cbn [fst snd]. rewrite Hlists. apply Hskip, Hafter. }
    split; [exact Heq|]. intros varName. rewrite Heq.
    destruct (updateDict !! varName) as [newVar|] eqn:Hv.
    + apply lookup_union_Some_l. exact Hv.
    + rewrite lookup_union_r by exact Hv. reflexivity.
Qed.

Lemma populate_last_entry_wins_witness :
  let controllerCfgVulcan : gmap string string := {[ "nz" := "20"; "atm_type" := "'isothermal'" ]} in
  let vulcanPopulator : list (string * gmap string string) :=
    [ ("00, 01", {[ "nz" := "30"; "Tiso" := "1000" ]});
      ("01,10", {[ "nz" := "40" ]}) ] in
  populate controllerCfgVulcan vulcanPopulator "201"
  = {[ "nz" := "40"; "atm_type" := "'isothermal'" ]}
  /\ populate controllerCfgVulcan vulcanPopulator "211" = controllerCfgVulcan.
Proof.
  intros controllerCfgVulcan vulcanPopulator. split.
  - destruct (populate_last_entry_wins controllerCfgVulcan "201") as [_ Hlast].
    destruct (Hlast [ ("00, 01", {[ "nz" := "30"; "Tiso" := "1000" ]}) ] "01,10"
                ({[ "nz" := "40" ]}) [] eq_refl ltac:(constructor)) as [Heq _].
    etransitivity; [exact Heq|]. vm_compute. reflexivity.
  - destruct (populate_last_entry_wins controllerCfgVulcan "211") as [Hnone _].
    apply Hnone. repeat constructor.
Defined.
